(** * The service manager of micro (service/runtime/manager/manager.go)

  A shallow embedding of the manager's Create, Read, Update, Delete,
  Start, Stop and watchServices, and the properties of its lifecycle.

  The manager talks to four collaborators (the store, the blob store, the
  builder and the execution backend) through helper methods and package
  functions.  Every such call is an operation of the type [Op]; a method
  of the manager is a program over these operations ([Prog]), translated
  statement by statement.  Running a program against a handler of the
  operations gives the value the method returns, the world the
  collaborators are left in and the sequence of calls that were made. *)

From Stdlib Require Import Ascii.
From stdpp Require Import base strings gmap list.

Set Default Proof Using "Type".
Open Scope string_scope.
Open Scope list_scope.

(** ** Package runtime: the types the manager borrows *)

Module runtime.

(** Modelled from the spec: the status enumeration of the runtime package
    (its declaration is in another package); the manager names Unknown,
    Pending, Building, Starting, Stopped and Error, its comments name
    stopping, the spec adds Running. *)
Inductive ServiceStatus : Set :=
| Unknown | Pending | Building | Starting | Running | Stopping | Stopped | Error.

#[global] Instance ServiceStatus_eq_dec : EqDecision ServiceStatus.
Proof. solve_decision. Defined.

(** Go's [error] interface as far as the manager looks at it: the two
    sentinels it compares by identity, and any other error value. *)
Inductive error : Type :=
| ErrAlreadyExists
| ErrNotFound
| ErrOther (msg : string).

#[global] Instance error_eq_dec : EqDecision error.
Proof. solve_decision. Defined.

(** [runtime.Service].  [Metadata] is a Go map: [None] is the nil map,
    which reads as the empty map and panics when written. *)
Record Service : Type := mkService {
  Name : string;
  Version : string;
  Source : string;
  Metadata : option (gmap string string);
  Status : ServiceStatus;
}.

(** The zero value, [runtime.Service{}]. *)
Definition zeroService : Service := mkService "" "" "" None Unknown.

Definition set_Version (v : string) (s : Service) : Service :=
  mkService (Name s) v (Source s) (Metadata s) (Status s).
Definition set_Source (v : string) (s : Service) : Service :=
  mkService (Name s) (Version s) v (Metadata s) (Status s).
Definition set_Metadata (v : option (gmap string string)) (s : Service) : Service :=
  mkService (Name s) (Version s) (Source s) v (Status s).
Definition set_Status (v : ServiceStatus) (s : Service) : Service :=
  mkService (Name s) (Version s) (Source s) (Metadata s) v.

(** The option structs; an option is a function that updates the struct
    it is given.  Only the fields the manager reads are kept. *)
Record CreateOptions : Type := mkCreateOptions { CreateNamespace : string }.
Record UpdateOptions : Type := mkUpdateOptions { UpdateNamespace : string }.
Record DeleteOptions : Type := mkDeleteOptions { DeleteNamespace : string }.
Record ReadOptions : Type := mkReadOptions {
  ReadService : string;
  ReadVersion : string;
  ReadOptNamespace : string;
}.

Definition CreateOption : Type := CreateOptions → CreateOptions.
Definition UpdateOption : Type := UpdateOptions → UpdateOptions.
Definition DeleteOption : Type := DeleteOptions → DeleteOptions.
Definition ReadOption : Type := ReadOptions → ReadOptions.

(** [runtime.ReadNamespace(ns)] *)
Definition ReadNamespace (ns : string) : ReadOption :=
  λ o, mkReadOptions (ReadService o) (ReadVersion o) ns.

End runtime.

(** ** Package logger *)

Module logger.

Inductive Level : Set :=
| TraceLevel | DebugLevel | InfoLevel | WarnLevel | ErrorLevel | FatalLevel.

(** An argument of a formatted log line. *)
Inductive arg : Type :=
| ArgString (s : string)
| ArgError (e : runtime.error).

End logger.

(** ** What the manager takes from its platform

  The standard library's [time.Time] with the two methods the manager
  calls, the constant [namespace.DefaultNamespace] and the type of the
  builder behind [builder.DefaultBuilder]. *)

Class Platform : Type := {
  Time : Type;
  IsZero : Time → bool;
  Format : Time → string → string;
  DefaultNamespace : string;
  Builder : Type;
}.

(** [time.RFC3339] *)
Definition RFC3339 : string := "2006-01-02T15:04:05Z07:00".

(** Go's panic, next to normal completion. *)
Inductive outcome (A : Type) : Type :=
| Done (a : A)
| Panic (msg : string).
Arguments Done {A} a.
Arguments Panic {A} msg.

Definition outcome_bind {A B} (o : outcome A) (f : A → outcome B) : outcome B :=
  match o with
  | Done a => f a
  | Panic msg => Panic msg
  end.

Section Manager.

Context `{platform : Platform}.

(** ** The record the manager keeps in the store *)

(** Modelled from the spec: the [service] struct of the manager package
    (declared next to the store helpers, outside manager.go): the
    runtime service, the create options, the status, the time of the last
    update and the error message. *)
Record service : Type := mkservice {
  Service : runtime.Service;
  Options : runtime.CreateOptions;
  Status : runtime.ServiceStatus;
  UpdatedAt : Time;
  Error : string;
}.

Definition with_Service (f : runtime.Service → runtime.Service) (s : service) : service :=
  mkservice (f (Service s)) (Options s) (Status s) (UpdatedAt s) (Error s).
Definition set_Status (v : runtime.ServiceStatus) (s : service) : service :=
  mkservice (Service s) (Options s) v (UpdatedAt s) (Error s).
Definition set_UpdatedAt (v : Time) (s : service) : service :=
  mkservice (Service s) (Options s) (Status s) v (Error s).
Definition set_Error (v : string) (s : service) : service :=
  mkservice (Service s) (Options s) (Status s) (UpdatedAt s) v.

(** The functions the manager starts with [go]. *)
Inductive Task : Type :=
| buildAndRun (s : service)
| buildAndUpdate (s : service)
| cleanupBlobStore (s : service)
| watchServicesTask.

(** ** The calls the manager makes

    A helper that receives the record by pointer may update it: its
    reply carries the record as the helper leaves it, next to the values
    the helper returns. *)
Inductive Op : Type → Type :=
| time_Now : Op Time
| checkoutSource (s : service) : Op (service * string * option runtime.error)
| createServiceInRuntime (s : service) : Op (service * option runtime.error)
| updateServiceInRuntime (s : service) : Op (service * option runtime.error)
| writeService (s : service) : Op (service * option runtime.error)
| readServices (ns : string) (filter : runtime.Service)
    : Op (list service * option runtime.error)
| deleteService (s : service) : Op (service * option runtime.error)
| listNamespaces : Op (list string * option runtime.error)
| Runtime_Read (opts : list runtime.ReadOption)
    : Op (list runtime.Service * option runtime.error)
| Runtime_Delete (srv : runtime.Service) (opts : list runtime.DeleteOption)
    : Op (option runtime.error)
| DefaultRuntime_Start : Op (option runtime.error)
| DefaultRuntime_Stop : Op (option runtime.error)
| runtime_Read (opts : list runtime.ReadOption)
    : Op (list runtime.Service * option runtime.error)
| go (t : Task) : Op unit
| logger_V (lvl : logger.Level) : Op bool
| logger_Warnf (format : string) (args : list logger.arg) : Op unit
| logger_Errorf (format : string) (args : list logger.arg) : Op unit.

(** ** Programs over the calls *)

Inductive Prog (R : Type) : Type :=
| Ret (r : R)
| Vis {X : Type} (op : Op X) (k : X → Prog R).
Arguments Ret {R} r.
Arguments Vis {R X} op k.

Fixpoint bind {A B} (p : Prog A) (f : A → Prog B) : Prog B :=
  match p with
  | Ret a => f a
  | Vis op k => Vis op (λ x, bind (k x) f)
  end.

(** [x <- op; k]: make the call [op], name its reply [x], go on with [k]. *)
Notation "'call!' x ← op ; k" := (Vis op (λ x, k))
  (at level 10, x name, op at level 100, k at level 200, only parsing).
Notation "'call!' ' pat ← op ; k" := (Vis op (λ x, match x with pat => k end))
  (at level 10, pat pattern, op at level 100, k at level 200, only parsing).

(** One call together with the reply it got. *)
Inductive event : Type :=
| Ev {X : Type} (op : Op X) (reply : X).

(** The collaborators: every call is answered from a world [W], which the
    call may change. *)
Definition handler (W : Type) : Type := ∀ X, Op X → W → X * W.

Fixpoint run {W R} (h : handler W) (p : Prog R) (w : W) : R * W * list event :=
  match p with
  | Ret r => (r, w, [])
  | Vis op k =>
      let a := h _ op w in
      let b := run h (k a.1) a.2 in
      (b.1.1, b.1.2, Ev op a.1 :: b.2)
  end.

Definition result {W R} (h : handler W) (p : Prog R) (w : W) : R := (run h p w).1.1.
Definition world {W R} (h : handler W) (p : Prog R) (w : W) : W := (run h p w).1.2.
Definition trace {W R} (h : handler W) (p : Prog R) (w : W) : list event := (run h p w).2.


(** ** The manager *)

(** [len(s) == 0] on a Go string. *)
Definition empty (s : string) : bool := Nat.eqb (String.length s) 0.

(** The key under which Read and watchServices file a runtime service:
    [s.Name + ":" + s.Version]. *)
Definition key (s : runtime.Service) : string :=
  runtime.Name s +:+ ":" +:+ runtime.Version s.

(** [for _, s := range rSrvs { m[s.Name+":"+s.Version] = s }], from the
    empty map: a later service takes the place of an earlier one with the
    same key. *)
Definition byKey (rSrvs : list runtime.Service) : gmap string runtime.Service :=
  foldl (λ m s, <[key s := s]> m) ∅ rSrvs.

(** [md[k] = v] on the metadata of a service: a write to the nil map
    panics. *)
Definition assign (k v : string) (r : runtime.Service) : outcome runtime.Service :=
  match runtime.Metadata r with
  | Some md => Done (runtime.set_Metadata (Some (<[k := v]> md)) r)
  | None => Panic "assignment to entry in nil map"
  end.

(** [md[k]] on a Go map that may be nil: the empty string when absent. *)
Definition index (md : option (gmap string string)) (k : string) : string :=
  match md with
  | Some m => default "" (m !! k)
  | None => ""
  end.

(** [for _, o := range opts { o(&options) }] from the zero options. *)
Definition parse {O : Type} (zero : O) (opts : list (O → O)) : O :=
  foldl (λ o f, f o) zero opts.

(** The options of Create after parsing and the namespace default. *)
Definition Create_options (opts : list runtime.CreateOption) : runtime.CreateOptions :=
  let options := parse (runtime.mkCreateOptions "") opts in
  if empty (runtime.CreateNamespace options)
  then runtime.mkCreateOptions DefaultNamespace else options.

Definition Read_options (opts : list runtime.ReadOption) : runtime.ReadOptions :=
  let options := parse (runtime.mkReadOptions "" "" "") opts in
  if empty (runtime.ReadOptNamespace options)
  then runtime.mkReadOptions (runtime.ReadService options) (runtime.ReadVersion options)
         DefaultNamespace
  else options.

Definition Update_options (opts : list runtime.UpdateOption) : runtime.UpdateOptions :=
  let options := parse (runtime.mkUpdateOptions "") opts in
  if empty (runtime.UpdateNamespace options)
  then runtime.mkUpdateOptions DefaultNamespace else options.

Definition Delete_options (opts : list runtime.DeleteOption) : runtime.DeleteOptions :=
  let options := parse (runtime.mkDeleteOptions "") opts in
  if empty (runtime.DeleteNamespace options)
  then runtime.mkDeleteOptions DefaultNamespace else options.

(** [if len(srv.Version) == 0 { srv.Version = "latest" }] *)
Definition defaultVersion (srv : runtime.Service) : runtime.Service :=
  if empty (runtime.Version srv) then runtime.set_Version "latest" srv else srv.

(** [if srv.Metadata == nil { srv.Metadata = make(map[string]string) }] *)
Definition defaultMetadata (srv : runtime.Service) : runtime.Service :=
  match runtime.Metadata srv with
  | None => runtime.set_Metadata (Some ∅) srv
  | Some _ => srv
  end.

(** [&runtime.Service{Name: name, Version: version}], the store filter. *)
Definition nameVersion (name version : string) : runtime.Service :=
  runtime.mkService name version "" None runtime.Unknown.

(** [err != nil && err != sentinel] *)
Definition fatal_unless (sentinel : runtime.error) (err : option runtime.error) : bool :=
  match err with
  | Some e => bool_decide (e ≠ sentinel)
  | None => false
  end.

(** [type manager struct]: the flag; the embedded (cached) runtime is
    reached through the calls [Runtime_Read] and [Runtime_Delete]. *)
Record manager : Type := mkmanager { running : bool }.

(** [func (m *manager) Create(srv *runtime.Service, opts ...runtime.CreateOption) error],
    with [builder.DefaultBuilder] as it stands when Create is called. *)
Definition Create (DefaultBuilder : option Builder) (srv : runtime.Service)
    (opts : list runtime.CreateOption) : Prog (option runtime.error) :=
  (* parse the options *)
  let options := Create_options opts in
  (* set defaults *)
  let srv := defaultVersion (defaultMetadata srv) in
  (* construct the service object *)
  call! now ← time_Now;
  let service := mkservice srv options runtime.Unknown now "" in
  match DefaultBuilder with
  | None =>
      call! '(service, src, err) ← checkoutSource service;
      let service := with_Service (runtime.set_Source src) service in
      match err with
      | Some e => Ret (Some e)
      | None =>
          call! '(service, err) ← createServiceInRuntime service;
          if fatal_unless runtime.ErrAlreadyExists err
          then Ret err
          else
            call! '(_, err) ← writeService service;
            Ret err
      end
  | Some _ =>
      let service := set_Status runtime.Pending service in
      call! '(service, err) ← writeService service;
      match err with
      | Some e => Ret (Some e)
      | None =>
          call! _ ← go (buildAndRun service);
          Ret None
      end
  end.

(** The body of the loop of Read for one stored record [s], where [result[i]]
    is [s.Service] itself. *)
Definition Read_merge (rSrvMap : gmap string runtime.Service) (s : service)
    : outcome runtime.Service :=
  let r := Service s in
  let r := if bool_decide (Status s ≠ runtime.Unknown)
           then runtime.set_Status (Status s) r else r in
  outcome_bind (if negb (empty (Error s)) then assign "error" (Error s) r else Done r) (λ r,
  outcome_bind (if negb (IsZero (UpdatedAt s))
                then assign "started" (Format (UpdatedAt s) RFC3339) r else Done r) (λ r,
  match rSrvMap !! key (Service s) with
  | None => Done r
  | Some rs =>
      let r := runtime.set_Status (runtime.Status rs) r in
      if bool_decide (runtime.Metadata rs ≠ None)
         && negb (empty (index (runtime.Metadata rs) "error"))
      then assign "status" (index (runtime.Metadata rs) "error") r
      else Done r
  end)).

(** [for i, s := range srvs { ... }] of Read. *)
Fixpoint Read_loop (rSrvMap : gmap string runtime.Service) (srvs : list service)
    : outcome (list runtime.Service) :=
  match srvs with
  | [] => Done []
  | s :: rest =>
      outcome_bind (Read_merge rSrvMap s) (λ r,
      outcome_bind (Read_loop rSrvMap rest) (λ rs, Done (r :: rs)))
  end.

(** [func (m *manager) Read(opts ...runtime.ReadOption) ([]*runtime.Service, error)] *)
Definition Read (opts : list runtime.ReadOption)
    : Prog (outcome (list runtime.Service * option runtime.error)) :=
  (* parse the options *)
  let options := Read_options opts in
  (* query the store *)
  call! '(srvs, err) ← readServices (runtime.ReadOptNamespace options)
     (nameVersion (runtime.ReadService options) (runtime.ReadVersion options));
  match err with
  | Some e => Ret (Done ([], Some e))
  | None =>
      (* query the runtime and group the services by name:version *)
      call! '(rSrvs, err) ← Runtime_Read opts;
      match err with
      | Some e => Ret (Done ([], Some e))
      | None =>
          Ret (outcome_bind (Read_loop (byKey rSrvs) srvs) (λ result, Done (result, None)))
      end
  end.

(** [func (m *manager) Update(srv *runtime.Service, opts ...runtime.UpdateOption) error] *)
Definition Update (DefaultBuilder : option Builder) (srv : runtime.Service)
    (opts : list runtime.UpdateOption) : Prog (option runtime.error) :=
  (* parse the options *)
  let options := Update_options opts in
  (* set default *)
  let srv := defaultVersion srv in
  (* read the service from the store *)
  call! '(srvs, err) ← readServices (runtime.UpdateNamespace options)
     (nameVersion (runtime.Name srv) (runtime.Version srv));
  match err with
  | Some e => Ret (Some e)
  | None =>
      match srvs with
      | [] => Ret (Some runtime.ErrNotFound)
      | service :: _ =>
          (* update the service *)
          let service := with_Service (runtime.set_Source (runtime.Source srv)) service in
          call! now ← time_Now;
          let service := set_UpdatedAt now service in
          match DefaultBuilder with
          | None =>
              call! '(service, src, err) ← checkoutSource service;
              let service := with_Service (runtime.set_Source src) service in
              match err with
              | Some e => Ret (Some e)
              | None =>
                  call! '(service, err) ← updateServiceInRuntime service;
                  match err with
                  | Some e => Ret (Some e)
                  | None =>
                      let service := set_Status runtime.Starting service in
                      let service := set_Error "" service in
                      call! '(_, err) ← writeService service;
                      Ret err
                  end
              end
          | Some _ =>
              let service := set_Status runtime.Pending service in
              call! '(service, err) ← writeService service;
              match err with
              | Some e => Ret (Some e)
              | None =>
                  call! _ ← go (buildAndUpdate service);
                  Ret None
              end
          end
      end
  end.

(** [func (m *manager) Delete(srv *runtime.Service, opts ...runtime.DeleteOption) error] *)
Definition Delete (srv : runtime.Service) (opts : list runtime.DeleteOption)
    : Prog (option runtime.error) :=
  (* parse the options *)
  let options := Delete_options opts in
  (* set defaults *)
  let srv := defaultVersion srv in
  (* read the service from the store *)
  call! '(srvs, err) ← readServices (runtime.DeleteNamespace options)
     (nameVersion (runtime.Name srv) (runtime.Version srv));
  match err with
  | Some e => Ret (Some e)
  | None =>
      match srvs with
      | [] => Ret (Some runtime.ErrNotFound)
      | srvs0 :: _ =>
          (* delete from the underlying runtime *)
          call! err ← Runtime_Delete srv opts;
          if fatal_unless runtime.ErrNotFound err
          then Ret err
          else
            (* delete from the store *)
            call! '(srvs0, err) ← deleteService srvs0;
            match err with
            | Some e => Ret (Some e)
            | None =>
                (* delete the source and binary from the blob store async *)
                call! _ ← go (cleanupBlobStore srvs0);
                Ret None
            end
      end
  end.

(** [func (m *manager) Start() error]; the manager is returned as Start
    leaves it. *)
Definition Start (m : manager) : Prog (manager * option runtime.error) :=
  if running m then Ret (m, None)
  else
    let m := mkmanager true in
    (* start the runtime we're going to manage *)
    call! err ← DefaultRuntime_Start;
    match err with
    | Some e => Ret (m, Some e)
    | None =>
        call! _ ← go watchServicesTask;
        Ret (m, None)
    end.

(** [func (m *manager) Stop() error] *)
Definition Stop (m : manager) : Prog (manager * option runtime.error) :=
  if negb (running m) then Ret (m, None)
  else
    let m := mkmanager false in
    call! err ← DefaultRuntime_Stop;
    Ret (m, err).

(** The three tests of watchServices on the stored status. *)
Definition notRunningForAReason (st : runtime.ServiceStatus) : bool :=
  bool_decide (st = runtime.Error)
  || bool_decide (st = runtime.Building)
  || bool_decide (st = runtime.Stopped).

(** [for _, srv := range srvs { ... }] of watchServices, given the map
    [running]. *)
Fixpoint watchServices_srvs (running : gmap string runtime.Service) (srvs : list service)
    : Prog unit :=
  match srvs with
  | [] => Ret tt
  | srv :: rest =>
      match running !! key (Service srv) with
      | Some _ =>
          (* already running, don't need to start again *)
          watchServices_srvs running rest
      | None =>
          (* skip services which aren't running for a reason *)
          if notRunningForAReason (Status srv) then watchServices_srvs running rest
          else
            (* create the service *)
            call! '(_, err) ← createServiceInRuntime srv;
            match err with
            | Some e =>
                call! v ← logger_V logger.ErrorLevel;
                if v
                then
                  call! _ ← logger_Errorf "Error restarting service: %v" [logger.ArgError e];
                  watchServices_srvs running rest
                else watchServices_srvs running rest
            | None => watchServices_srvs running rest
            end
      end
  end.

(** [for _, ns := range nss { ... }] of watchServices; a [return] in the
    body ends the function, so the remaining namespaces are not visited. *)
Fixpoint watchServices_nss (nss : list string) : Prog unit :=
  match nss with
  | [] => Ret tt
  | ns :: rest =>
      call! '(srvs, err) ← readServices ns runtime.zeroService;
      match err with
      | Some e =>
          call! _ ← logger_Warnf "Error reading services from the %v namespace: %v"
                      [logger.ArgString ns; logger.ArgError e];
          Ret tt
      | None =>
          call! '(curr, _) ← runtime_Read [runtime.ReadNamespace ns];
          bind (watchServices_srvs (byKey curr) srvs) (λ _, watchServices_nss rest)
      end
  end.

(** [func (m *manager) watchServices()] *)
Definition watchServices : Prog unit :=
  call! '(nss, err) ← listNamespaces;
  match err with
  | Some e =>
      call! _ ← logger_Warnf "Error listing namespaces: %v" [logger.ArgError e];
      Ret tt
  | None => watchServices_nss nss
  end.

End Manager.

Arguments Ret {platform R} r.
Arguments Vis {platform R X} op k.

(** ** A reference world

    The collaborators of the manager are outside manager.go.  The
    properties below hold for every handler of the calls; this module
    gives one handler to run the manager on: an in-memory store, an
    in-memory backend, a fixed clock, a list of started tasks and a log. *)

Module sim.

(** A civil time in UTC, as [Format] prints it. *)
Record civil : Type := mkcivil {
  year : nat; month : nat; day : nat;
  hour : nat; minute : nat; second : nat;
}.

(** The zero [time.Time]: January 1, year 1, 00:00:00 UTC. *)
Definition civil_zero : civil := mkcivil 1 1 1 0 0 0.

#[global] Instance civil_eq_dec : EqDecision civil.
Proof. solve_decision. Defined.

Definition digit (n : nat) : string :=
  String (Ascii.ascii_of_nat (48 + n mod 10)) "".

Definition pad2 (n : nat) : string := digit (n / 10) +:+ digit n.
Definition pad4 (n : nat) : string := pad2 (n / 100) +:+ pad2 (n mod 100).

(** The RFC3339 rendering of a UTC time; other layouts are not needed. *)
Definition civil_format (t : civil) (layout : string) : string :=
  pad4 (year t) +:+ "-" +:+ pad2 (month t) +:+ "-" +:+ pad2 (day t) +:+ "T"
  +:+ pad2 (hour t) +:+ ":" +:+ pad2 (minute t) +:+ ":" +:+ pad2 (second t) +:+ "Z".

#[local] Instance stub : Platform := {|
  Time := civil;
  IsZero := λ t, bool_decide (t = civil_zero);
  Format := civil_format;
  DefaultNamespace := "micro";
  Builder := unit;
|}.

Record World : Type := mkWorld {
  clock : civil;                            (* what time.Now() answers *)
  store : list service;                     (* the records, in store order *)
  live : list (string * runtime.Service);   (* namespace and instance *)
  unreadable : list string;                 (* namespaces the store fails to read *)
  started : list Task;                      (* tasks started with go *)
  log : list (logger.Level * string * list logger.arg);
}.

Definition set_store (v : list service) (w : World) : World :=
  mkWorld (clock w) v (live w) (unreadable w) (started w) (log w).
Definition set_live (v : list (string * runtime.Service)) (w : World) : World :=
  mkWorld (clock w) (store w) v (unreadable w) (started w) (log w).
Definition add_started (t : Task) (w : World) : World :=
  mkWorld (clock w) (store w) (live w) (unreadable w) (started w ++ [t]) (log w).
Definition add_log (l : logger.Level * string * list logger.arg) (w : World) : World :=
  mkWorld (clock w) (store w) (live w) (unreadable w) (started w) (log w ++ [l]).

Definition namespace_of (s : service) : string := runtime.CreateNamespace (Options s).

(** Two records with the same namespace, name and version. *)
Definition same_record (a b : service) : bool :=
  bool_decide (namespace_of a = namespace_of b)
  && bool_decide (runtime.Name (Service a) = runtime.Name (Service b))
  && bool_decide (runtime.Version (Service a) = runtime.Version (Service b)).

(** A store filter: an empty name or version matches every record. *)
Definition matches (ns : string) (f : runtime.Service) (s : service) : bool :=
  bool_decide (namespace_of s = ns)
  && (empty (runtime.Name f) || bool_decide (runtime.Name (Service s) = runtime.Name f))
  && (empty (runtime.Version f)
      || bool_decide (runtime.Version (Service s) = runtime.Version f)).

Definition is_live (ns : string) (r : runtime.Service) (x : string * runtime.Service) : bool :=
  bool_decide (x.1 = ns) && bool_decide (key x.2 = key r).

Fixpoint upsert (s : service) (l : list service) : list service :=
  match l with
  | [] => [s]
  | x :: rest => if same_record x s then s :: rest else x :: upsert s rest
  end.

Fixpoint dedup (l : list string) : list string :=
  match l with
  | [] => []
  | x :: rest => if bool_decide (x ∈ rest) then dedup rest else x :: dedup rest
  end.

Definition read_live (opts : list runtime.ReadOption) (w : World) : list runtime.Service :=
  let o := parse (runtime.mkReadOptions "" "" "") opts in
  let ns := if empty (runtime.ReadOptNamespace o) then "micro" else runtime.ReadOptNamespace o in
  (filter (λ x, x.1 = ns
             ∧ (runtime.ReadService o = "" ∨ runtime.Name x.2 = runtime.ReadService o)
             ∧ (runtime.ReadVersion o = "" ∨ runtime.Version x.2 = runtime.ReadVersion o))
     (live w)).*2.

(** Modelled from the spec: the collaborators behind the calls (store
    helpers, source checkout, backend, logger), which are outside
    manager.go.  The store keeps one record per namespace, name and version
    and supports read by filter, write (upsert) and delete; the backend
    signals an instance that is already there with ErrAlreadyExists and one
    that is not there with ErrNotFound; a task started with go is only
    recorded. *)
Definition handle : handler World := λ X op,
  match op in Op X return World → X * World with
  | time_Now => λ w, (clock w, w)
  | checkoutSource s => λ w, ((s, runtime.Source (Service s), None), w)
  | createServiceInRuntime s => λ w,
      if existsb (is_live (namespace_of s) (Service s)) (live w)
      then ((s, Some runtime.ErrAlreadyExists), w)
      else ((s, None),
            set_live (live w ++ [(namespace_of s,
                                  runtime.set_Status runtime.Running (Service s))]) w)
  | updateServiceInRuntime s => λ w,
      if existsb (is_live (namespace_of s) (Service s)) (live w)
      then ((s, None),
            set_live (map (λ x, if is_live (namespace_of s) (Service s) x
                                then (x.1, runtime.set_Status runtime.Running (Service s))
                                else x) (live w)) w)
      else ((s, Some runtime.ErrNotFound), w)
  | writeService s => λ w, ((s, None), set_store (upsert s (store w)) w)
  | readServices ns f => λ w,
      if bool_decide (ns ∈ unreadable w)
      then (([], Some (runtime.ErrOther "store: read failed")), w)
      else ((filter (λ s, matches ns f s = true) (store w), None), w)
  | deleteService s => λ w,
      ((s, None), set_store (filter (λ x, same_record x s = false) (store w)) w)
  | listNamespaces => λ w, ((dedup (map namespace_of (store w)), None), w)
  | Runtime_Read opts => λ w, ((read_live opts w, None), w)
  | Runtime_Delete srv opts => λ w,
      let o := parse (runtime.mkDeleteOptions "") opts in
      let ns := if empty (runtime.DeleteNamespace o) then "micro"
                else runtime.DeleteNamespace o in
      if existsb (is_live ns srv) (live w)
      then (None, set_live (filter (λ x, is_live ns srv x = false) (live w)) w)
      else (Some runtime.ErrNotFound, w)
  | DefaultRuntime_Start => λ w, (None, w)
  | DefaultRuntime_Stop => λ w, (None, w)
  | runtime_Read opts => λ w, ((read_live opts w, None), w)
  | go t => λ w, (tt, add_started t w)
  | logger_V lvl => λ w, (true, w)
  | logger_Warnf format args => λ w, (tt, add_log (logger.WarnLevel, format, args) w)
  | logger_Errorf format args => λ w, (tt, add_log (logger.ErrorLevel, format, args) w)
  end.

(** *** Worlds to run the manager in *)

Definition noon : civil := mkcivil 2020 7 14 12 0 0.

(** The service a client asks for. *)
Definition billing : runtime.Service :=
  runtime.mkService "billing" "" "github.com/micro/services/billing" None runtime.Unknown.

(** The record Create writes for it at [noon] without a builder. *)
Definition billing_record : service :=
  mkservice
    (runtime.mkService "billing" "latest" "github.com/micro/services/billing" (Some ∅)
       runtime.Unknown)
    (runtime.mkCreateOptions "micro") runtime.Unknown noon "".

(** The instance the backend runs for it. *)
Definition billing_live : runtime.Service :=
  runtime.set_Status runtime.Running (Service billing_record).

(** Nothing stored, nothing running. *)
Definition fresh : World := mkWorld noon [] [] [] [] [].

(** The record stored and the instance running. *)
Definition deployed : World := mkWorld noon [billing_record] [("micro", billing_live)] [] [] [].

(** The record stored, the backend empty (after a restart of the backend). *)
Definition restarted : World := mkWorld noon [billing_record] [] [] [] [].

(** A record of a second namespace. *)
Definition mail_record : service :=
  mkservice
    (runtime.mkService "mail" "latest" "github.com/micro/services/mail" (Some ∅)
       runtime.Unknown)
    (runtime.mkCreateOptions "staging") runtime.Unknown noon "".

(** Two namespaces in the store, the second of them unreadable. *)
Definition degraded : World :=
  mkWorld noon [billing_record; mail_record] [] ["staging"] [] [].

(** A record whose build failed, and a live instance of the same name and
    version that carries an error annotation of its own. *)
Definition failed_record : service :=
  mkservice
    (runtime.mkService "billing" "latest" "github.com/micro/services/billing" (Some ∅)
       runtime.Unknown)
    (runtime.mkCreateOptions "micro") runtime.Error noon "build failed".

Definition crashed_live : runtime.Service :=
  runtime.mkService "billing" "latest" "github.com/micro/services/billing"
    (Some {[ "error" := "exit status 1" ]}) runtime.Error.

Definition crashed : World :=
  mkWorld noon [failed_record] [("micro", crashed_live)] [] [] [].

End sim.

(** ** Reading a trace *)

Section Events.

Context `{platform : Platform}.

(** A store write or delete, or a call that changes the execution
    backend. *)
Definition mutation (e : event) : bool :=
  match e with
  | Ev op _ =>
      match op with
      | writeService _ | deleteService _
      | createServiceInRuntime _ | updateServiceInRuntime _ | Runtime_Delete _ _
      | DefaultRuntime_Start | DefaultRuntime_Stop => true
      | _ => false
      end
  end.

(** A source resolution or a call of the execution backend (the build is
    reached through the task [buildAndRun] only). *)
Definition source_or_backend (e : event) : bool :=
  match e with
  | Ev op _ =>
      match op with
      | checkoutSource _
      | createServiceInRuntime _ | updateServiceInRuntime _
      | Runtime_Read _ | Runtime_Delete _ _ | runtime_Read _
      | DefaultRuntime_Start | DefaultRuntime_Stop => true
      | _ => false
      end
  end.

(** The record of a creation attempt in the execution backend. *)
Definition created (e : event) : option service :=
  match e with
  | Ev op _ =>
      match op with
      | createServiceInRuntime s => Some s
      | _ => None
      end
  end.

(** A read of the store. *)
Definition store_read (e : event) : bool :=
  match e with
  | Ev op _ =>
      match op with
      | readServices _ _ => true
      | _ => false
      end
  end.

(** A store read that failed. *)
Definition read_failure (e : event) : bool :=
  match e with
  | Ev op reply =>
      match op in Op X return X → bool with
      | readServices _ _ => λ reply, bool_decide (reply.2 ≠ None)
      | _ => λ _, false
      end reply
  end.

(** The instance the backend's report holds for a name and a version: the
    entry of the map of Read under the key name:version. *)
Definition live_instance (rSrvs : list runtime.Service) (name version : string)
    : option runtime.Service :=
  byKey rSrvs !! (name +:+ ":" +:+ version).

(** A record whose metadata map is allocated, as Create leaves every
    record it builds. *)
Definition allocated (s : service) : Prop := runtime.Metadata (Service s) ≠ None.

#[global] Instance allocated_dec (s : service) : Decision (allocated s).
Proof. unfold allocated. apply _. Defined.

End Events.

(** ** More ways to read a trace *)

Section Observations.

Context `{platform : Platform}.

(** A record the loop of watchServices does not skip: absent from the map
    [running] and with a status other than Error, Building and Stopped. *)
Definition wanted (running : gmap string runtime.Service) (s : service) : bool :=
  bool_decide (running !! key (Service s) = None)
  && negb (notRunningForAReason (Status s)).

(** The records of the creation attempts of a trace, in order. *)
Definition creations (t : list event) : list service := omap created t.

(** Whether the loop body of Read writes to the metadata map of the
    record: a stored error message, a set UpdatedAt, or a live instance
    with an error annotation. *)
Definition writes_metadata (rSrvMap : gmap string runtime.Service) (s : service) : bool :=
  negb (empty (Error s))
  || negb (IsZero (UpdatedAt s))
  || match rSrvMap !! key (Service s) with
     | Some rs =>
         bool_decide (runtime.Metadata rs ≠ None)
         && negb (empty (index (runtime.Metadata rs) "error"))
     | None => false
     end.

(** The status the loop body of Read gives a record before it looks at
    the report of the backend. *)
Definition stored_status (s : service) : runtime.ServiceStatus :=
  if bool_decide (Status s ≠ runtime.Unknown) then Status s
  else runtime.Status (Service s).

(** The record of a store write. *)
Definition persisted (e : event) : option service :=
  match e with
  | Ev op _ =>
      match op with
      | writeService s => Some s
      | _ => None
      end
  end.

(** The collaborator call behind an event. *)
Inductive kind : Set :=
| KNow | KCheckoutSource | KCreateInRuntime | KUpdateInRuntime
| KWriteService | KReadServices | KDeleteService | KListNamespaces
| KRuntimeRead | KRuntimeDelete | KRuntimeStart | KRuntimeStop
| KGo | KLog.

#[global] Instance kind_eq_dec : EqDecision kind.
Proof. solve_decision. Defined.

Definition kind_of (e : event) : kind :=
  match e with
  | Ev op _ =>
      match op with
      | time_Now => KNow
      | checkoutSource _ => KCheckoutSource
      | createServiceInRuntime _ => KCreateInRuntime
      | updateServiceInRuntime _ => KUpdateInRuntime
      | writeService _ => KWriteService
      | readServices _ _ => KReadServices
      | deleteService _ => KDeleteService
      | listNamespaces => KListNamespaces
      | Runtime_Read _ | runtime_Read _ => KRuntimeRead
      | Runtime_Delete _ _ => KRuntimeDelete
      | DefaultRuntime_Start => KRuntimeStart
      | DefaultRuntime_Stop => KRuntimeStop
      | go _ => KGo
      | logger_V _ | logger_Warnf _ _ | logger_Errorf _ _ => KLog
      end
  end.

(** Every event of the trace is a call of one of the kinds [ks]. *)
Definition within (ks : list kind) (t : list event) : Prop :=
  Forall (λ e, kind_of e ∈ ks) t.

(** A string without the separator of the keys. *)
Fixpoint colon_free (s : string) : bool :=
  match s with
  | EmptyString => true
  | String c rest => negb (Ascii.eqb c ":"%char) && colon_free rest
  end.

End Observations.

(** ** Package profile (src/unnamed/part_000): the table of profiles *)

Module profile.

Section Profiles.

(** The type of the [Setup] field (a function from a cli context to an
    error), and the
    setup functions of the five built-in profiles. *)
Context {SetupFn : Type}.
Context (ClientSetup ServiceSetup TestSetup LocalSetup KubernetesSetup : SetupFn).

(** [type Profile struct] *)
Record Profile : Type := mkProfile {
  Name : string;
  Setup : SetupFn;
}.

Definition Client : Profile := mkProfile "client" ClientSetup.
Definition Local : Profile := mkProfile "local" LocalSetup.
Definition Kubernetes : Profile := mkProfile "kubernetes" KubernetesSetup.
Definition Service : Profile := mkProfile "service" ServiceSetup.
Definition Test : Profile := mkProfile "test" TestSetup.

(** [var profiles = map[string]*Profile{...}] as the package starts. *)
Definition profiles : gmap string Profile :=
  <["client" := Client]> (<["service" := Service]> (<["test" := Test]>
    (<["local" := Local]> (<["kubernetes" := Kubernetes]> ∅)))).

(** [func Register(name string, p *Profile) error] on the table [tbl]; an
    error is the message [fmt.Errorf] builds; the table is returned as
    Register leaves it. *)
Definition Register (name : string) (p : Profile) (tbl : gmap string Profile)
    : option string * gmap string Profile :=
  match tbl !! name with
  | Some _ => (Some ("profile " +:+ name +:+ " already exists"), tbl)
  | None => (None, <[name := p]> tbl)
  end.

(** [func Load(name string)], which returns a profile and an error. *)
Definition Load (name : string) (tbl : gmap string Profile)
    : option Profile * option string :=
  match tbl !! name with
  | None => (None, Some ("profile " +:+ name +:+ " does not exist"))
  | Some v => (Some v, None)
  end.

(** A sequence of Register calls, the errors dropped. *)
Definition RegisterAll (l : list (string * Profile)) (tbl : gmap string Profile)
    : gmap string Profile :=
  foldl (λ t np, (Register np.1 np.2 t).2) tbl l.

End Profiles.

End profile.

(** ** More worlds *)

Module cases.

#[local] Existing Instance sim.stub.

(** The answer of a collaborator that cannot be reached. *)
Definition unavailable : runtime.error := runtime.ErrOther "unavailable".

(** The reference world behind a broken connection: the backend and the
    listing of the namespaces fail, the rest answers as before. *)
Definition handle_down : handler sim.World := λ X op,
  match op in Op X return sim.World → X * sim.World with
  | time_Now => sim.handle _ time_Now
  | checkoutSource s => sim.handle _ (checkoutSource s)
  | createServiceInRuntime s => λ w, ((s, Some unavailable), w)
  | updateServiceInRuntime s => λ w, ((s, Some unavailable), w)
  | writeService s => sim.handle _ (writeService s)
  | readServices ns f => sim.handle _ (readServices ns f)
  | deleteService s => sim.handle _ (deleteService s)
  | listNamespaces => λ w, (([], Some unavailable), w)
  | Runtime_Read opts => λ w, (([], Some unavailable), w)
  | Runtime_Delete srv opts => λ w, (Some unavailable, w)
  | DefaultRuntime_Start => λ w, (Some unavailable, w)
  | DefaultRuntime_Stop => λ w, (Some unavailable, w)
  | runtime_Read opts => λ w, (([], Some unavailable), w)
  | go t => sim.handle _ (go t)
  | logger_V lvl => sim.handle _ (logger_V lvl)
  | logger_Warnf format args => sim.handle _ (logger_Warnf format args)
  | logger_Errorf format args => sim.handle _ (logger_Errorf format args)
  end.

(** The reference world with a backend that refuses every creation. *)
Definition handle_refusing : handler sim.World := λ X op,
  match op in Op X return sim.World → X * sim.World with
  | time_Now => sim.handle _ time_Now
  | checkoutSource s => sim.handle _ (checkoutSource s)
  | createServiceInRuntime s => λ w, ((s, Some unavailable), w)
  | updateServiceInRuntime s => sim.handle _ (updateServiceInRuntime s)
  | writeService s => sim.handle _ (writeService s)
  | readServices ns f => sim.handle _ (readServices ns f)
  | deleteService s => sim.handle _ (deleteService s)
  | listNamespaces => sim.handle _ listNamespaces
  | Runtime_Read opts => sim.handle _ (Runtime_Read opts)
  | Runtime_Delete srv opts => sim.handle _ (Runtime_Delete srv opts)
  | DefaultRuntime_Start => sim.handle _ DefaultRuntime_Start
  | DefaultRuntime_Stop => sim.handle _ DefaultRuntime_Stop
  | runtime_Read opts => sim.handle _ (runtime_Read opts)
  | go t => sim.handle _ (go t)
  | logger_V lvl => sim.handle _ (logger_V lvl)
  | logger_Warnf format args => sim.handle _ (logger_Warnf format args)
  | logger_Errorf format args => sim.handle _ (logger_Errorf format args)
  end.

(** The service api of version v1:2, stored, and the service api:v1 of
    version 2, which the backend may run. *)
Definition api_record : service :=
  mkservice (runtime.mkService "api" "v1:2" "github.com/micro/services/api" (Some ∅)
               runtime.Unknown)
    (runtime.mkCreateOptions "micro") runtime.Unknown sim.noon "".

Definition api_v1_live : runtime.Service :=
  runtime.mkService "api:v1" "2" "github.com/micro/services/api-v1" (Some ∅) runtime.Running.

Definition api_shadowed : sim.World :=
  sim.mkWorld sim.noon [api_record] [("micro", api_v1_live)] [] [] [].

(** The record stored and the instance running, a day later. *)
Definition next_day : sim.civil := sim.mkcivil 2020 7 15 9 30 0.
Definition deployed_next_day : sim.World :=
  sim.mkWorld next_day [sim.billing_record] [("micro", sim.billing_live)] [] [] [].

(** The update a client sends for billing. *)
Definition billing_v2 : runtime.Service :=
  runtime.mkService "billing" "" "github.com/micro/services/billing@v2" None runtime.Unknown.

(** The option that names the namespace staging. *)
Definition in_staging : runtime.UpdateOption := λ _, runtime.mkUpdateOptions "staging".
Definition delete_in_staging : runtime.DeleteOption := λ _, runtime.mkDeleteOptions "staging".

(** A record that did not come through Create: its metadata map is nil. *)
Definition foreign_record : service :=
  mkservice
    (runtime.mkService "legacy" "latest" "github.com/micro/services/legacy" None
       runtime.Unknown)
    (runtime.mkCreateOptions "micro") runtime.Running sim.noon "".

Definition foreign : sim.World := sim.mkWorld sim.noon [foreign_record] [] [] [] [].

(** A record whose build failed and that carries metadata of its own. *)
Definition tagged_record : service :=
  mkservice
    (runtime.mkService "billing" "latest" "github.com/micro/services/billing"
       (Some {[ "owner" := "alice"; "error" := "stale" ]}) runtime.Unknown)
    (runtime.mkCreateOptions "micro") runtime.Error sim.noon "build failed".

Definition tagged : sim.World := sim.mkWorld sim.noon [tagged_record] [] [] [] [].

(** Three records of one namespace: one to restart, one that is stopped,
    one that is running. *)
Definition stopped_record : service :=
  mkservice
    (runtime.mkService "mail" "latest" "github.com/micro/services/mail" (Some ∅)
       runtime.Unknown)
    (runtime.mkCreateOptions "micro") runtime.Stopped sim.noon "".

Definition search_record : service :=
  mkservice
    (runtime.mkService "search" "latest" "github.com/micro/services/search" (Some ∅)
       runtime.Unknown)
    (runtime.mkCreateOptions "micro") runtime.Unknown sim.noon "".

End cases.

(** ** Properties *)

Section Properties.

Context `{platform : Platform} {W : Type} (h : handler W).

Lemma run_Ret {R} (r : R) (w : W) : run h (Ret r) w = (r, w, []).
Proof. reflexivity. Qed.

Lemma run_Vis {R X} (op : Op X) (k : X → Prog R) (w : W) (x : X) (w' : W) :
  h X op w = (x, w') →
  run h (Vis op k) w =
    ((run h (k x) w').1.1, (run h (k x) w').1.2, Ev op x :: (run h (k x) w').2).
Proof. intros Hop. simpl. by rewrite Hop. Qed.

Lemma run_bind {A B} (p : Prog A) (f : A → Prog B) (w : W) :
  run h (bind p f) w =
    let a := run h p w in
    let b := run h (f a.1.1) a.1.2 in
    (b.1.1, b.1.2, a.2 ++ b.2).
Proof.
  revert w. induction p as [a | X op k IH]; intros w; simpl.
  - by destruct (run h (f a) w) as [[??]?].
  - by rewrite IH.
Qed.

(** One step of a run, with the reply of the handler taken from a
    hypothesis. *)
Ltac step H := erewrite run_Vis by exact H; cbn [fst snd].

(** *** Create with a builder *)

(** C1.  When a builder is configured, Create asks for the time, sets the
    status of the record to Pending and writes the record to the store.
    If the write fails its error is returned, and this is the only error
    Create can return; otherwise Create starts the task buildAndRun with
    [go] and returns nil, whatever that task does later.  No source
    resolution and no call of the execution backend is made before Create
    returns. *)
Theorem Create_builder_pending_then_returns
    (b : Builder) (srv : runtime.Service) (opts : list runtime.CreateOption)
    (w w1 w2 : W) (now : Time) (written : service) (werr : option runtime.error) :
  let pending :=
    mkservice (defaultVersion (defaultMetadata srv)) (Create_options opts)
      runtime.Pending now "" in
  h _ time_Now w = (now, w1) →
  h _ (writeService pending) w1 = ((written, werr), w2) →
  result h (Create (Some b) srv opts) w = werr
  ∧ trace h (Create (Some b) srv opts) w =
      [Ev time_Now now; Ev (writeService pending) (written, werr)]
      ++ match werr with Some _ => [] | None => [Ev (go (buildAndRun written)) tt] end
  ∧ world h (Create (Some b) srv opts) w =
      match werr with Some _ => w2 | None => (h _ (go (buildAndRun written)) w2).2 end
  ∧ Forall (λ e, source_or_backend e = false) (trace h (Create (Some b) srv opts) w).
Proof.
  intros pending Hnow Hwrite.
  assert (Hrun : run h (Create (Some b) srv opts) w =
            (werr,
             match werr with Some _ => w2 | None => (h _ (go (buildAndRun written)) w2).2 end,
             [Ev time_Now now; Ev (writeService pending) (written, werr)]
             ++ match werr with Some _ => [] | None => [Ev (go (buildAndRun written)) tt] end)).
  { unfold Create. step Hnow. unfold set_Status; cbn [Service Options UpdatedAt Error].
    fold pending. step Hwrite.
    destruct werr as [e|]; [reflexivity|].
    simpl. by destruct (h _ (go (buildAndRun written)) w2) as [[] ?]. }
  unfold result, trace, world. rewrite Hrun. cbn [fst snd].
  repeat split.
  destruct werr; repeat constructor.
Qed.

(** *** Update and Delete of a record the store does not hold *)

(** C4.  When the store read of Update, or of Delete, answers with no
    record and no error, the call returns ErrNotFound; the store read is
    the only call it makes, so it makes no store write or delete and no
    call that changes the backend, and it leaves the world as the read left
    it. *)
Theorem Update_Delete_not_found
    (DefaultBuilder : option Builder) (srv : runtime.Service)
    (uopts : list runtime.UpdateOption) (dopts : list runtime.DeleteOption)
    (w wu wd : W) :
  let filter :=
    nameVersion (runtime.Name (defaultVersion srv)) (runtime.Version (defaultVersion srv)) in
  let uread := readServices (runtime.UpdateNamespace (Update_options uopts)) filter in
  let dread := readServices (runtime.DeleteNamespace (Delete_options dopts)) filter in
  h _ uread w = (([], None), wu) →
  h _ dread w = (([], None), wd) →
  (run h (Update DefaultBuilder srv uopts) w =
     (Some runtime.ErrNotFound, wu, [Ev uread ([], None)])
   ∧ Forall (λ e, mutation e = false) (trace h (Update DefaultBuilder srv uopts) w))
  ∧ (run h (Delete srv dopts) w =
       (Some runtime.ErrNotFound, wd, [Ev dread ([], None)])
     ∧ Forall (λ e, mutation e = false) (trace h (Delete srv dopts) w)).
Proof.
  intros filter uread dread Hu Hd.
  assert (HU : run h (Update DefaultBuilder srv uopts) w =
                 (Some runtime.ErrNotFound, wu, [Ev uread ([], None)])).
  { unfold Update. fold filter. fold uread. by step Hu. }
  assert (HD : run h (Delete srv dopts) w =
                 (Some runtime.ErrNotFound, wd, [Ev dread ([], None)])).
  { unfold Delete. fold filter. fold dread. by step Hd. }
  unfold trace. rewrite HU, HD. cbn [fst snd].
  repeat split; repeat constructor.
Qed.

(** *** Start and Stop *)

Lemma Start_sets_running (m : manager) (w : W) :
  running (run h (Start m) w).1.1.1 = true.
Proof.
  unfold Start. destruct (running m) eqn:Hm; simpl; [done|].
  destruct (h _ DefaultRuntime_Start w) as [[e|] w1]; simpl; [done|].
  by destruct (h _ (go watchServicesTask) w1).
Qed.

Lemma Stop_clears_running (m : manager) (w : W) :
  running (run h (Stop m) w).1.1.1 = false.
Proof.
  unfold Stop. destruct (running m) eqn:Hm; simpl; [|done].
  by destruct (h _ DefaultRuntime_Stop w).
Qed.

(** C9.  Start on a manager that is running is the program that returns
    nil at once: it makes no call, so it neither starts the backend nor
    the reconciliation loop.  Stop on a manager that is not running is the
    program that returns nil at once, without stopping the backend.  Hence
    a second Start right after a Start, and a second Stop right after a
    Stop, make no call and change neither the manager nor the world. *)
Theorem Start_Stop_idempotent (m : manager) (w : W) :
  Start (mkmanager true) = Ret (mkmanager true, None)
  ∧ Stop (mkmanager false) = Ret (mkmanager false, None)
  ∧ (let first := run h (Start m) w in
     run h (Start first.1.1.1) first.1.2 = ((first.1.1.1, None), first.1.2, []))
  ∧ (let first := run h (Stop m) w in
     run h (Stop first.1.1.1) first.1.2 = ((first.1.1.1, None), first.1.2, [])).
Proof.
  split; [done|]. split; [done|]. split.
  - intros first. pose proof (Start_sets_running m w) as Hr. fold first in Hr.
    unfold Start at 1. by rewrite Hr.
  - intros first. pose proof (Stop_clears_running m w) as Hr. fold first in Hr.
    unfold Stop at 1. by rewrite Hr.
Qed.

(** *** Create without a builder *)


(** *** Update without a builder *)

(** C7.  Without a builder Update of a record the store holds takes the
    first record read, puts the source reference of the request and the
    time in it, and resolves the source; it puts the resolved source in the
    record, updates the service in the backend and then writes the record
    with the status Starting and the empty error message, returning what
    the write returns.  An error of the source resolution or of the backend
    update is returned at once and the store is not written. *)
Theorem Update_no_builder_starting
    (srv : runtime.Service) (opts : list runtime.UpdateOption)
    (w w1 w2 w3 w4 w5 : W) (now : Time) (src : string)
    (stored checked updated written : service) (others : list service)
    (cerr uerr werr : option runtime.error) :
  let read :=
    readServices (runtime.UpdateNamespace (Update_options opts))
      (nameVersion (runtime.Name (defaultVersion srv))
         (runtime.Version (defaultVersion srv))) in
  let changed :=
    mkservice
      (runtime.mkService (runtime.Name (Service stored)) (runtime.Version (Service stored))
         (runtime.Source srv) (runtime.Metadata (Service stored))
         (runtime.Status (Service stored)))
      (Options stored) (Status stored) now (Error stored) in
  let resolved :=
    mkservice
      (runtime.mkService (runtime.Name (Service checked)) (runtime.Version (Service checked))
         src (runtime.Metadata (Service checked)) (runtime.Status (Service checked)))
      (Options checked) (Status checked) (UpdatedAt checked) (Error checked) in
  let starting :=
    mkservice (Service updated) (Options updated) runtime.Starting (UpdatedAt updated) "" in
  h _ read w = ((stored :: others, None), w1) →
  h _ time_Now w1 = (now, w2) →
  h _ (checkoutSource changed) w2 = ((checked, src, cerr), w3) →
  h _ (updateServiceInRuntime resolved) w3 = ((updated, uerr), w4) →
  h _ (writeService starting) w4 = ((written, werr), w5) →
  run h (Update None srv opts) w =
    match cerr, uerr with
    | Some e, _ =>
        (Some e, w3,
         [Ev read (stored :: others, None); Ev time_Now now;
          Ev (checkoutSource changed) (checked, src, cerr)])
    | None, Some e =>
        (Some e, w4,
         [Ev read (stored :: others, None); Ev time_Now now;
          Ev (checkoutSource changed) (checked, src, cerr);
          Ev (updateServiceInRuntime resolved) (updated, uerr)])
    | None, None =>
        (werr, w5,
         [Ev read (stored :: others, None); Ev time_Now now;
          Ev (checkoutSource changed) (checked, src, cerr);
          Ev (updateServiceInRuntime resolved) (updated, uerr);
          Ev (writeService starting) (written, werr)])
    end
  ∧ omap persisted (trace h (Update None srv opts) w) =
      match cerr, uerr with
      | None, None => [starting]
      | _, _ => []
      end.
Proof.
  intros read changed resolved starting Hread Hnow Hcheck Hupdate Hwrite.
  assert (Hsrc : runtime.Source (defaultVersion srv) = runtime.Source srv).
  { unfold defaultVersion. by destruct (empty _). }
  assert (Hrun : run h (Update None srv opts) w =
    match cerr, uerr with
    | Some e, _ =>
        (Some e, w3,
         [Ev read (stored :: others, None); Ev time_Now now;
          Ev (checkoutSource changed) (checked, src, cerr)])
    | None, Some e =>
        (Some e, w4,
         [Ev read (stored :: others, None); Ev time_Now now;
          Ev (checkoutSource changed) (checked, src, cerr);
          Ev (updateServiceInRuntime resolved) (updated, uerr)])
    | None, None =>
        (werr, w5,
         [Ev read (stored :: others, None); Ev time_Now now;
          Ev (checkoutSource changed) (checked, src, cerr);
          Ev (updateServiceInRuntime resolved) (updated, uerr);
          Ev (writeService starting) (written, werr)])
    end).
  { unfold Update. fold read. step Hread. step Hnow. rewrite Hsrc. step Hcheck.
    destruct cerr as [e|]; [reflexivity|].
    step Hupdate. destruct uerr as [e|]; [reflexivity|].
    by step Hwrite. }
  split; [exact Hrun|]. unfold trace. rewrite Hrun.
  by destruct cerr, uerr.
Qed.

(** *** Delete of a record the store holds *)

(** C5.  Delete of a record the store holds deletes the service in the
    backend first; an error of the backend is returned at once unless it
    is nil or ErrNotFound.  Past the backend, Delete deletes the record in
    the store with a direct call and returns the error of that call if
    there is one.  Only then, as its last step, it starts the blob store
    cleanup with [go] and returns nil: the store deletion is made before
    Delete returns, the cleanup is the only work that is started rather
    than done, and nothing the cleanup does reaches the value returned. *)
Theorem Delete_existing_store_then_cleanup
    (srv : runtime.Service) (opts : list runtime.DeleteOption)
    (w w1 w2 w3 : W) (stored deleted : service) (others : list service)
    (rerr derr : option runtime.error) :
  let read :=
    readServices (runtime.DeleteNamespace (Delete_options opts))
      (nameVersion (runtime.Name (defaultVersion srv))
         (runtime.Version (defaultVersion srv))) in
  let backend := Runtime_Delete (defaultVersion srv) opts in
  h _ read w = ((stored :: others, None), w1) →
  h _ backend w1 = (rerr, w2) →
  h _ (deleteService stored) w2 = ((deleted, derr), w3) →
  run h (Delete srv opts) w =
    if fatal_unless runtime.ErrNotFound rerr
    then (rerr, w2, [Ev read (stored :: others, None); Ev backend rerr])
    else
      match derr with
      | Some e =>
          (Some e, w3,
           [Ev read (stored :: others, None); Ev backend rerr;
            Ev (deleteService stored) (deleted, derr)])
      | None =>
          (None, (h _ (go (cleanupBlobStore deleted)) w3).2,
           [Ev read (stored :: others, None); Ev backend rerr;
            Ev (deleteService stored) (deleted, derr);
            Ev (go (cleanupBlobStore deleted)) tt])
      end.
Proof.
  intros read backend Hread Hbackend Hdelete.
  unfold Delete. fold read. step Hread. fold backend. step Hbackend.
  destruct (fatal_unless runtime.ErrNotFound rerr); [reflexivity|].
  step Hdelete. destruct derr as [e|]; [reflexivity|].
  simpl. by destruct (h _ (go (cleanupBlobStore deleted)) w3) as [[] ?].
Qed.

(** *** Read: the stored record overlaid with the live instance *)

Lemma byKey_foldl_None (l : list runtime.Service) (m : gmap string runtime.Service) (k : string) :
  foldl (λ m s, <[key s := s]> m) m l !! k = None ↔
  m !! k = None ∧ ∀ v, v ∈ l → key v ≠ k.
Proof.
  revert m. induction l as [|x l IH]; intros m; simpl.
  - split; [intros Hm; split; [done|]; intros v Hv; by apply elem_of_nil in Hv | by intros [? _]].
  - rewrite IH. split.
    + intros [Hx Hl]. apply lookup_insert_None in Hx as [Hm Hne]. split; [done|].
      intros v Hv. apply elem_of_cons in Hv as [->|Hv]; [done | by apply Hl].
    + intros [Hm Hl]. split.
      * apply lookup_insert_None. split; [done|]. apply Hl, elem_of_cons; by left.
      * intros v Hv. apply Hl, elem_of_cons; by right.
Qed.

Lemma byKey_None (l : list runtime.Service) (k : string) :
  byKey l !! k = None ↔ ∀ v, v ∈ l → key v ≠ k.
Proof.
  unfold byKey. rewrite byKey_foldl_None, lookup_empty.
  split; [by intros [_ Hl] | by intros Hl].
Qed.

Lemma byKey_foldl_fresh (l : list runtime.Service) (m : gmap string runtime.Service) (k : string) :
  (∀ v, v ∈ l → key v ≠ k) →
  foldl (λ m s, <[key s := s]> m) m l !! k = m !! k.
Proof.
  revert m. induction l as [|x l IH]; intros m Hl; simpl; [done|].
  rewrite IH.
  - apply lookup_insert_ne, Hl, elem_of_cons. by left.
  - intros v Hv. apply Hl, elem_of_cons. by right.
Qed.

(** In a report with pairwise distinct keys, the instance reported under a
    name and a version is the live instance of Read for them. *)
Lemma live_instance_unique (rSrvs : list runtime.Service) (rs : runtime.Service) :
  NoDup (key <$> rSrvs) → rs ∈ rSrvs →
  live_instance rSrvs (runtime.Name rs) (runtime.Version rs) = Some rs.
Proof.
  unfold live_instance, byKey. fold (key rs).
  generalize (∅ : gmap string runtime.Service).
  induction rSrvs as [|x l IH]; intros m Hnd Hin; [by apply elem_of_nil in Hin|].
  rewrite fmap_cons in Hnd. apply NoDup_cons in Hnd as [Hx Hnd].
  apply elem_of_cons in Hin as [->|Hin]; simpl.
  - rewrite byKey_foldl_fresh; [apply lookup_insert_eq|].
    intros v Hv Heq. apply Hx. rewrite <- Heq. by apply list_elem_of_fmap_2.
  - by apply IH.
Qed.

(** The record Create builds has an allocated metadata map (lines 26 to
    28 of manager.go), so a record that reaches the store through Create
    does not make Read panic. *)
Lemma Create_record_allocated
    (srv : runtime.Service) (options : runtime.CreateOptions)
    (status : runtime.ServiceStatus) (now : Time) (err : string) :
  allocated (mkservice (defaultVersion (defaultMetadata srv)) options status now err).
Proof.
  unfold allocated, defaultVersion, defaultMetadata. simpl.
  destruct (runtime.Metadata srv) eqn:Hmd; destruct (empty _); simpl; by rewrite ?Hmd.
Qed.

(** A record whose metadata map is nil and whose UpdatedAt is set makes
    the loop body of Read panic. *)
Lemma Read_merge_nil_panics (rSrvMap : gmap string runtime.Service) (s : service) :
  runtime.Metadata (Service s) = None →
  IsZero (UpdatedAt s) = false →
  Read_merge rSrvMap s = Panic "assignment to entry in nil map".
Proof.
  intros Hnil Hzero. unfold Read_merge, assign. rewrite Hzero.
  destruct (bool_decide (Status s ≠ runtime.Unknown)), (negb (empty (Error s)));
    simpl; by rewrite Hnil.
Qed.

Lemma assign_allocated (k v : string) (r : runtime.Service) (md : gmap string string) :
  runtime.Metadata r = Some md →
  assign k v r = Done (runtime.set_Metadata (Some (<[k := v]> md)) r).
Proof. intros Hmd. unfold assign. by rewrite Hmd. Qed.

(** What the loop body of Read gives for a record with an allocated
    metadata map. *)
Lemma Read_merge_allocated (rSrvMap : gmap string runtime.Service) (s : service) :
  allocated s →
  ∃ r md,
    Read_merge rSrvMap s = Done r
    ∧ runtime.Metadata r = Some md
    ∧ runtime.Name r = runtime.Name (Service s)
    ∧ runtime.Version r = runtime.Version (Service s)
    ∧ (IsZero (UpdatedAt s) = false → md !! "started" = Some (Format (UpdatedAt s) RFC3339))
    ∧ (∀ rs, rSrvMap !! key (Service s) = Some rs → runtime.Status r = runtime.Status rs)
    ∧ (rSrvMap !! key (Service s) = None →
       runtime.Status r = if bool_decide (Status s ≠ runtime.Unknown)
                          then Status s else runtime.Status (Service s)).
Proof.
  unfold allocated. intros Hal.
  destruct (runtime.Metadata (Service s)) as [md0|] eqn:Hmd0; [clear Hal|done].
  unfold Read_merge.
  set (r0 := if bool_decide (Status s ≠ runtime.Unknown)
             then runtime.set_Status (Status s) (Service s) else Service s).
  assert (H0 : runtime.Metadata r0 = Some md0
               ∧ runtime.Name r0 = runtime.Name (Service s)
               ∧ runtime.Version r0 = runtime.Version (Service s)
               ∧ runtime.Status r0 = if bool_decide (Status s ≠ runtime.Unknown)
                                     then Status s else runtime.Status (Service s)).
  { unfold r0. by case_bool_decide. }
  destruct H0 as (Hm0 & Hn0 & Hv0 & Hs0). clearbody r0.
  set (o1 := if negb (empty (Error s)) then assign "error" (Error s) r0 else Done r0).
  assert (H1 : ∃ r1 md1, o1 = Done r1 ∧ runtime.Metadata r1 = Some md1
               ∧ runtime.Name r1 = runtime.Name (Service s)
               ∧ runtime.Version r1 = runtime.Version (Service s)
               ∧ runtime.Status r1 = runtime.Status r0).
  { unfold o1. destruct (negb (empty (Error s))).
    - rewrite (assign_allocated _ _ _ _ Hm0). by eexists _, _.
    - by eexists _, _. }
  destruct H1 as (r1 & md1 & -> & Hm1 & Hn1 & Hv1 & Hs1). simpl.
  set (o2 := if negb (IsZero (UpdatedAt s))
             then assign "started" (Format (UpdatedAt s) RFC3339) r1 else Done r1).
  assert (H2 : ∃ r2 md2, o2 = Done r2 ∧ runtime.Metadata r2 = Some md2
               ∧ runtime.Name r2 = runtime.Name (Service s)
               ∧ runtime.Version r2 = runtime.Version (Service s)
               ∧ runtime.Status r2 = runtime.Status r0
               ∧ (IsZero (UpdatedAt s) = false →
                  md2 !! "started" = Some (Format (UpdatedAt s) RFC3339))).
  { unfold o2. destruct (IsZero (UpdatedAt s)); simpl.
    - by eexists _, _.
    - rewrite (assign_allocated _ _ _ _ Hm1). eexists _, _.
      repeat split; try done. intros _. apply lookup_insert_eq. }
  destruct H2 as (r2 & md2 & -> & Hm2 & Hn2 & Hv2 & Hs2 & Hst). simpl.
  destruct (rSrvMap !! key (Service s)) as [rs|].
  - destruct (bool_decide (runtime.Metadata rs ≠ None)
              && negb (empty (index (runtime.Metadata rs) "error"))).
    + unfold assign; simpl. rewrite Hm2. eexists _, _.
      repeat split; try done.
      * intros Hz. rewrite lookup_insert_ne; [by apply Hst | done].
      * intros ? [= <-]. done.
    + eexists _, _. repeat split; try done. intros ? [= <-]. done.
  - eexists _, _. repeat split; try done. intros _. by rewrite Hs2.
Qed.

(** Where the loop body of Read puts the error annotation of a live
    instance: under the metadata key status.  The key error holds the
    stored error message when there is one, and is left alone otherwise. *)
Lemma Read_merge_live_error
    (rSrvMap : gmap string runtime.Service) (s : service) (rs : runtime.Service)
    (md0 : gmap string string) :
  runtime.Metadata (Service s) = Some md0 →
  rSrvMap !! key (Service s) = Some rs →
  empty (index (runtime.Metadata rs) "error") = false →
  ∃ r md,
    Read_merge rSrvMap s = Done r
    ∧ runtime.Metadata r = Some md
    ∧ runtime.Status r = runtime.Status rs
    ∧ md !! "status" = Some (index (runtime.Metadata rs) "error")
    ∧ md !! "error" = if empty (Error s) then md0 !! "error" else Some (Error s).
Proof.
  intros Hmd0 Hrs Hann. unfold Read_merge. rewrite Hrs, Hann.
  assert (Hnil : bool_decide (runtime.Metadata rs ≠ None) = true).
  { apply bool_decide_eq_true. intros Hnone. by rewrite Hnone in Hann. }
  rewrite Hnil. unfold assign.
  destruct s as [[name version source md status] options stored updated err].
  simpl in Hmd0 |- *. subst md.
  clear Hnil.
  destruct (bool_decide (stored ≠ runtime.Unknown)), (empty err), (IsZero updated);
    simpl; eexists _, _; (repeat split; [reflexivity ..| |]); by simplify_map_eq.
Qed.

Lemma Read_loop_allocated (rSrvMap : gmap string runtime.Service) (srvs : list service) :
  Forall allocated srvs →
  ∃ out,
    Read_loop rSrvMap srvs = Done out
    ∧ length out = length srvs
    ∧ ∀ i s, srvs !! i = Some s → ∃ r, out !! i = Some r ∧ Read_merge rSrvMap s = Done r.
Proof.
  induction 1 as [|s srvs Hs Hrest IH]; simpl.
  - exists []. repeat split. intros i s Hi. by rewrite lookup_nil in Hi.
  - destruct (Read_merge_allocated rSrvMap s Hs) as (r & md & Hr & _).
    destruct IH as (out & -> & Hlen & Hout). rewrite Hr. simpl.
    exists (r :: out). repeat split; [simpl; by rewrite Hlen|].
    intros [|i] s' Hi; simpl in *.
    + injection Hi as <-. by exists r.
    + by apply Hout.
Qed.

(** C2.  Read of a store that answers with records whose metadata maps
    are allocated, one of them, at position i, with a non-zero UpdatedAt
    and with a live instance of status Running reported by the backend
    under its name and version: Read returns one service per record, and
    the service at position i has the name and the version of the record,
    the status Running, and under the metadata key started the UpdatedAt
    of the record in the RFC3339 layout. *)
Theorem Read_live_running_started
    (opts : list runtime.ReadOption) (w w1 w2 : W)
    (srvs : list service) (rSrvs : list runtime.Service)
    (i : nat) (s : service) (rs : runtime.Service) :
  let options := Read_options opts in
  h _ (readServices (runtime.ReadOptNamespace options)
         (nameVersion (runtime.ReadService options) (runtime.ReadVersion options))) w
    = ((srvs, None), w1) →
  h _ (Runtime_Read opts) w1 = ((rSrvs, None), w2) →
  Forall allocated srvs →
  srvs !! i = Some s →
  IsZero (UpdatedAt s) = false →
  live_instance rSrvs (runtime.Name (Service s)) (runtime.Version (Service s)) = Some rs →
  runtime.Status rs = runtime.Running →
  ∃ out r md,
    result h (Read opts) w = Done (out, None)
    ∧ length out = length srvs
    ∧ out !! i = Some r
    ∧ runtime.Name r = runtime.Name (Service s)
    ∧ runtime.Version r = runtime.Version (Service s)
    ∧ runtime.Status r = runtime.Running
    ∧ runtime.Metadata r = Some md
    ∧ md !! "started" = Some (Format (UpdatedAt s) RFC3339).
Proof.
  intros options Hstore Hlive Hal Hi Hzero Hrs Hrun.
  destruct (Read_loop_allocated (byKey rSrvs) srvs Hal) as (out & Hloop & Hlen & Hout).
  destruct (Hout i s Hi) as (r & Hr & Hmerge).
  destruct (Read_merge_allocated (byKey rSrvs) s) as (r' & md & Hmerge' & Hmd & Hn & Hv & Hst & Hsome & _).
  { eapply Forall_lookup_1; eauto. }
  rewrite Hmerge in Hmerge'. injection Hmerge' as <-.
  exists out, r, md. repeat split; try done.
  - unfold result, Read. fold options. step Hstore. step Hlive. simpl. by rewrite Hloop.
  - rewrite (Hsome rs); [done|]. exact Hrs.
  - by apply Hst.
Qed.

(** *** The reconciliation pass *)

Lemma trace_Ret {R} (r : R) (w : W) : trace h (Ret r) w = [].
Proof. reflexivity. Qed.

Lemma trace_Vis {R X} (op : Op X) (k : X → Prog R) (w : W) :
  trace h (Vis op k) w =
    Ev op (h _ op w).1 :: trace h (k (h _ op w).1) (h _ op w).2.
Proof. reflexivity. Qed.

Lemma trace_bind {A B} (p : Prog A) (f : A → Prog B) (w : W) :
  trace h (bind p f) w = trace h p w ++ trace h (f (result h p w)) (world h p w).
Proof. unfold trace, result, world. by rewrite run_bind. Qed.

(** The loop over the records of one namespace attempts a creation only
    for a record of the list that is absent from the map [running] and
    whose status is none of Error, Building and Stopped. *)
Lemma watchServices_srvs_created
    (running : gmap string runtime.Service) (srvs : list service) (w : W)
    (e : event) (srv : service) :
  e ∈ trace h (watchServices_srvs running srvs) w →
  created e = Some srv →
  srv ∈ srvs
  ∧ running !! key (Service srv) = None
  ∧ notRunningForAReason (Status srv) = false.
Proof.
  revert w. induction srvs as [|s srvs IH]; intros w He Hc; simpl in He.
  - by apply elem_of_nil in He.
  - assert (Hrest : ∀ w', e ∈ trace h (watchServices_srvs running srvs) w' →
              srv ∈ s :: srvs ∧ running !! key (Service srv) = None
              ∧ notRunningForAReason (Status srv) = false).
    { intros w' He'. destruct (IH w' He' Hc) as (? & ? & ?).
      split; [by apply elem_of_cons; right | done]. }
    destruct (running !! key (Service s)) as [v|] eqn:Hlive; [by eapply Hrest|].
    destruct (notRunningForAReason (Status s)) eqn:Hskip; [by eapply Hrest|].
    rewrite trace_Vis in He.
    destruct (h _ (createServiceInRuntime s) w) as [[s' err] w1]. cbn [fst snd] in He.
    apply elem_of_cons in He as [-> | He].
    { simpl in Hc. injection Hc as <-. split; [by apply elem_of_cons; left | done]. }
    destruct err as [err|]; [|by eapply Hrest].
    rewrite trace_Vis in He. apply elem_of_cons in He as [-> | He]; [done|].
    destruct (h _ (logger_V logger.ErrorLevel) w1) as [[|] w2]; cbn [fst snd] in He;
      [|by eapply Hrest].
    rewrite trace_Vis in He. apply elem_of_cons in He as [-> | He]; [done|].
    by eapply Hrest.
Qed.

(** The loop over the records of one namespace reads nothing from the
    store. *)
Lemma watchServices_srvs_no_read
    (running : gmap string runtime.Service) (srvs : list service) (w : W) :
  Forall (λ e, store_read e = false) (trace h (watchServices_srvs running srvs) w).
Proof.
  revert w. induction srvs as [|s srvs IH]; intros w; simpl; [constructor|].
  destruct (running !! key (Service s)); [apply IH|].
  destruct (notRunningForAReason (Status s)); [apply IH|].
  rewrite trace_Vis. destruct (h _ (createServiceInRuntime s) w) as [[s' err] w1].
  cbn [fst snd]. constructor; [done|].
  destruct err as [err|]; [|apply IH].
  rewrite trace_Vis. destruct (h _ (logger_V logger.ErrorLevel) w1) as [v w2].
  cbn [fst snd]. constructor; [done|].
  destruct v; [|apply IH].
  rewrite trace_Vis. constructor; [done | apply IH].
Qed.

(** Every creation attempt of the loop over the namespaces comes after the
    store read and the backend report of its own namespace, with nothing
    but creation attempts and log calls in between. *)
Lemma watchServices_nss_created
    (nss : list string) (w : W) (i : nat) (e : event) (srv : service) :
  trace h (watchServices_nss nss) w !! i = Some e →
  created e = Some srv →
  ∃ ns srvs curr rerr before between after,
    trace h (watchServices_nss nss) w =
      before
      ++ Ev (readServices ns runtime.zeroService) (srvs, None)
         :: Ev (runtime_Read [runtime.ReadNamespace ns]) (curr, rerr)
         :: between ++ e :: after
    ∧ i = length before + 2 + length between
    ∧ Forall (λ e', store_read e' = false) between
    ∧ srv ∈ srvs
    ∧ byKey curr !! key (Service srv) = None
    ∧ notRunningForAReason (Status srv) = false.
Proof.
  revert w i. induction nss as [|ns nss IH]; intros w i He Hc; simpl in He |- *.
  - by rewrite trace_Ret, lookup_nil in He.
  - rewrite !trace_Vis in *.
    destruct (h _ (readServices ns runtime.zeroService) w) as [[srvs err] w1].
    cbn [fst snd] in *.
    destruct i as [|i]; [simpl in He; injection He as <-; done|]. simpl in He.
    destruct err as [err|].
    { rewrite trace_Vis in He. destruct i as [|i]; simpl in He; [|done].
      injection He as <-. done. }
    rewrite !trace_Vis in *.
    destruct (h _ (runtime_Read [runtime.ReadNamespace ns]) w1) as [[curr rerr] w2].
    cbn [fst snd] in *.
    destruct i as [|i]; [simpl in He; injection He as <-; done|]. simpl in He.
    rewrite trace_bind in *.
    set (inner := trace h (watchServices_srvs (byKey curr) srvs) w2) in *.
    apply lookup_app_Some in He as [He | [Hlen He]].
    + destruct (watchServices_srvs_created (byKey curr) srvs w2 e srv)
        as (Hin & Hlive & Hst); [by eapply list_elem_of_lookup_2 | done |].
      eexists ns, srvs, curr, rerr, [], (take i inner), (drop (S i) inner ++ _).
      repeat split; try done.
      * simpl. do 2 f_equal. rewrite app_comm_cons, app_assoc. f_equal.
        symmetry. by apply take_drop_middle.
      * simpl. rewrite length_take. apply lookup_lt_Some in He. lia.
      * apply Forall_take, watchServices_srvs_no_read.
    + destruct (IH _ _ He Hc)
        as (ns' & srvs' & curr' & rerr' & before & between & after
            & Heq & Hi & H1 & H2 & H3 & H4).
      exists ns', srvs', curr', rerr',
        (Ev (readServices ns runtime.zeroService) (srvs, None)
         :: Ev (runtime_Read [runtime.ReadNamespace ns]) (curr, rerr) :: inner ++ before),
        between, after.
      repeat split; try done.
      * rewrite Heq. simpl. do 2 f_equal. by rewrite <- app_assoc.
      * simpl. rewrite length_app. lia.
Qed.

Lemma byKey_no_instance (curr : list runtime.Service) (r : runtime.Service) :
  byKey curr !! key r = None →
  ∀ v, v ∈ curr → ¬ (runtime.Name v = runtime.Name r ∧ runtime.Version v = runtime.Version r).
Proof.
  intros Hnone v Hv [Hn Hver]. apply (proj1 (byKey_None _ _) Hnone v Hv).
  unfold key. by rewrite Hn, Hver.
Qed.

(** C8.  Every creation that a pass of watchServices attempts in the
    backend is for a record whose stored status is none of Error,
    Building and Stopped.  The attempt comes after the store read and the
    backend report of its own namespace, with no other store read in
    between; the record is one of those this store read returned, and the
    report names no instance with the name and the version of the record:
    a service reported live is not created again. *)
Theorem watchServices_creates_only_missing_runnable
    (w : W) (i : nat) (e : event) (srv : service) :
  trace h watchServices w !! i = Some e →
  created e = Some srv →
  (Status srv ≠ runtime.Error ∧ Status srv ≠ runtime.Building
   ∧ Status srv ≠ runtime.Stopped)
  ∧ ∃ ns srvs curr rerr before between after,
      trace h watchServices w =
        before
        ++ Ev (readServices ns runtime.zeroService) (srvs, None)
           :: Ev (runtime_Read [runtime.ReadNamespace ns]) (curr, rerr)
           :: between ++ e :: after
      ∧ i = length before + 2 + length between
      ∧ Forall (λ e', store_read e' = false) between
      ∧ srv ∈ srvs
      ∧ ∀ v, v ∈ curr →
          ¬ (runtime.Name v = runtime.Name (Service srv)
             ∧ runtime.Version v = runtime.Version (Service srv)).
Proof.
  unfold watchServices. rewrite !trace_Vis.
  destruct (h _ listNamespaces w) as [[nss err] w1]. cbn [fst snd].
  intros He Hc.
  destruct i as [|i]; [simpl in He; injection He as <-; done|]. simpl in He.
  destruct err as [err|].
  { rewrite trace_Vis in He. destruct i as [|i]; simpl in He; [|done].
    injection He as <-. done. }
  destruct (watchServices_nss_created _ _ _ _ _ He Hc)
    as (ns & srvs & curr & rerr & before & between & after
        & Heq & Hi & H1 & H2 & H3 & H4).
  split.
  - unfold notRunningForAReason in H4.
    apply orb_false_iff in H4 as [H4 Hstopped].
    apply orb_false_iff in H4 as [Herror Hbuilding].
    apply bool_decide_eq_false in Herror, Hbuilding, Hstopped. done.
  - exists ns, srvs, curr, rerr, (Ev listNamespaces (nss, None) :: before), between, after.
    repeat split; try done.
    + by rewrite Heq.
    + simpl. lia.
    + by apply byKey_no_instance.
Qed.

(** A pass over [pre ++ rest] in which every store read for [pre]
    succeeds is the pass over [pre] followed by the pass over [rest]. *)
Lemma watchServices_nss_app (pre rest : list string) (w : W) :
  Forall (λ e, read_failure e = false) (trace h (watchServices_nss pre) w) →
  run h (watchServices_nss (pre ++ rest)) w =
    (tt, world h (watchServices_nss rest) (world h (watchServices_nss pre) w),
     trace h (watchServices_nss pre) w
     ++ trace h (watchServices_nss rest) (world h (watchServices_nss pre) w)).
Proof.
  revert w. induction pre as [|ns pre IH]; intros w Hok.
  - unfold world, trace. simpl. by destruct (run h (watchServices_nss rest) w) as [[[] ?] ?].
  - simpl in Hok |- *. unfold world, trace in *. simpl in Hok |- *.
    destruct (h _ (readServices ns runtime.zeroService) w) as [[srvs err] w1].
    cbn [fst snd] in *.
    apply Forall_cons in Hok as [Hread Hok].
    destruct err as [err|]; [done|]. simpl in Hok |- *.
    destruct (h _ (runtime_Read [runtime.ReadNamespace ns]) w1) as [[curr rerr] w2].
    cbn [fst snd] in *.
    apply Forall_cons in Hok as [_ Hok].
    rewrite run_bind in Hok |- *. rewrite !run_bind. cbn [fst snd] in *.
    apply Forall_app in Hok as [_ Hok].
    rewrite (IH _ Hok). unfold world, trace. cbn [fst snd].
    by rewrite <- !app_assoc.
Qed.

(** The loop over the records never ends early: over [l1 ++ l2] it is
    the loop over [l1] followed by the loop over [l2]. *)
Lemma watchServices_srvs_app
    (running : gmap string runtime.Service) (l1 l2 : list service) (w : W) :
  run h (watchServices_srvs running (l1 ++ l2)) w =
    (tt, world h (watchServices_srvs running l2) (world h (watchServices_srvs running l1) w),
     trace h (watchServices_srvs running l1) w
     ++ trace h (watchServices_srvs running l2) (world h (watchServices_srvs running l1) w)).
Proof.
  revert w. induction l1 as [|s l1 IH]; intros w.
  - unfold world, trace. simpl.
    by destruct (run h (watchServices_srvs running l2) w) as [[[] ?] ?].
  - unfold world, trace in *. simpl.
    destruct (running !! key (Service s)); [apply IH|].
    destruct (notRunningForAReason (Status s)); [apply IH|].
    simpl. destruct (h _ (createServiceInRuntime s) w) as [[s' err] w1]. cbn [fst snd].
    destruct err as [err|]; [|by rewrite IH].
    simpl. destruct (h _ (logger_V logger.ErrorLevel) w1) as [v w2]. cbn [fst snd].
    destruct v; [|by rewrite IH].
    simpl. destruct (h _ (logger_Errorf _ _) w2) as [[] w3]. cbn [fst snd].
    by rewrite IH.
Qed.

(** One turn of the loop over the records for a record that is created
    and whose creation fails. *)
Lemma watchServices_srvs_create_failure
    (running : gmap string runtime.Service) (srv left : service) (rest : list service)
    (u u1 : W) (crerr : runtime.error) :
  let errorf := logger_Errorf "Error restarting service: %v" [logger.ArgError crerr] in
  running !! key (Service srv) = None →
  notRunningForAReason (Status srv) = false →
  h _ (createServiceInRuntime srv) u = ((left, Some crerr), u1) →
  let v := h _ (logger_V logger.ErrorLevel) u1 in
  let u2 := if v.1 then (h _ errorf v.2).2 else v.2 in
  run h (watchServices_srvs running (srv :: rest)) u =
    (tt, world h (watchServices_srvs running rest) u2,
     Ev (createServiceInRuntime srv) (left, Some crerr)
     :: Ev (logger_V logger.ErrorLevel) v.1
     :: (if v.1 then [Ev errorf tt] else [])
     ++ trace h (watchServices_srvs running rest) u2).
Proof.
  intros errorf Hlive Hskip Hcreate v u2. simpl. rewrite Hlive, Hskip.
  step Hcreate. simpl. fold v. fold errorf. unfold world, trace. subst u2.
  destruct v as [[|] u3]; cbn [fst snd].
  - destruct (h _ errorf u3) as [[] u4] eqn:Herrorf. step Herrorf. simpl.
    by destruct (run h (watchServices_srvs running rest) u4) as [[[] ?] ?].
  - by destruct (run h (watchServices_srvs running rest) u3) as [[[] ?] ?].
Qed.

(** The creation attempts of the loop over the records do not depend on
    what the creations answer. *)
Lemma watchServices_srvs_attempts
    (running : gmap string runtime.Service) (srvs : list service) (w : W) :
  creations (trace h (watchServices_srvs running srvs) w) = List.filter (wanted running) srvs.
Proof.
  unfold creations, wanted. revert w.
  induction srvs as [|s srvs IH]; intros w; [done|].
  cbn [watchServices_srvs List.filter].
  destruct (running !! key (Service s)) as [v|] eqn:Hlive.
  { rewrite bool_decide_eq_false_2 by done. apply IH. }
  rewrite bool_decide_eq_true_2 by done. cbn [andb].
  destruct (notRunningForAReason (Status s)); cbn [negb]; [apply IH|].
  rewrite trace_Vis. destruct (h _ (createServiceInRuntime s) w) as [[s' err] w1].
  cbn [fst snd omap list_omap created]. f_equal.
  destruct err as [err|]; [|apply IH].
  rewrite trace_Vis. destruct (h _ (logger_V logger.ErrorLevel) w1) as [v w2].
  cbn [fst snd omap list_omap created]. destruct v; [|apply IH].
  rewrite trace_Vis. cbn [fst snd omap list_omap created]. apply IH.
Qed.

(** C10.  Take a pass of watchServices whose listing answers with the
    namespaces [pre ++ ns :: post] and which has read the records of the
    namespaces [pre].  First, if the read of the records of [ns] fails,
    the pass logs a warning and returns: the failed read and the warning
    are its last calls, and no call is made for a namespace of [post].
    Second, if the read succeeds and the creation of one of the records,
    [srv], fails, the pass asks the logger whether the error level is on,
    logs the error if it is, and goes on: with the records after [srv],
    and then with the namespaces [post]; the creations it attempts are
    those it would attempt had the creation succeeded. *)
Theorem watchServices_read_failure_ends_create_failure_continues
    (pre post : list string) (ns : string) (w w0 w1 : W) :
  h _ listNamespaces w = ((pre ++ ns :: post, None), w0) →
  world h (watchServices_nss pre) w0 = w1 →
  Forall (λ e, read_failure e = false) (trace h (watchServices_nss pre) w0) →
  (∀ (got : list service) (rderr : runtime.error) (w2 : W),
     h _ (readServices ns runtime.zeroService) w1 = ((got, Some rderr), w2) →
     let warn :=
       logger_Warnf "Error reading services from the %v namespace: %v"
         [logger.ArgString ns; logger.ArgError rderr] in
     run h watchServices w =
       (tt, (h _ warn w2).2,
        Ev listNamespaces (pre ++ ns :: post, None)
        :: trace h (watchServices_nss pre) w0
        ++ [Ev (readServices ns runtime.zeroService) (got, Some rderr); Ev warn tt]))
  ∧ (∀ (earlier : list service) (srv : service) (rest : list service)
       (curr : list runtime.Service) (rerr : option runtime.error)
       (w2 w3 u u1 : W) (left : service) (crerr : runtime.error),
     h _ (readServices ns runtime.zeroService) w1 = ((earlier ++ srv :: rest, None), w2) →
     h _ (runtime_Read [runtime.ReadNamespace ns]) w2 = ((curr, rerr), w3) →
     (∀ v, v ∈ curr → key v ≠ key (Service srv)) →
     Status srv ≠ runtime.Error →
     Status srv ≠ runtime.Building →
     Status srv ≠ runtime.Stopped →
     world h (watchServices_srvs (byKey curr) earlier) w3 = u →
     h _ (createServiceInRuntime srv) u = ((left, Some crerr), u1) →
     let errorf := logger_Errorf "Error restarting service: %v" [logger.ArgError crerr] in
     let v := h _ (logger_V logger.ErrorLevel) u1 in
     let u2 := if v.1 then (h _ errorf v.2).2 else v.2 in
     let u3 := world h (watchServices_srvs (byKey curr) rest) u2 in
     run h watchServices w =
       (tt, world h (watchServices_nss post) u3,
        Ev listNamespaces (pre ++ ns :: post, None)
        :: trace h (watchServices_nss pre) w0
        ++ Ev (readServices ns runtime.zeroService) (earlier ++ srv :: rest, None)
        :: Ev (runtime_Read [runtime.ReadNamespace ns]) (curr, rerr)
        :: trace h (watchServices_srvs (byKey curr) earlier) w3
        ++ Ev (createServiceInRuntime srv) (left, Some crerr)
        :: Ev (logger_V logger.ErrorLevel) v.1
        :: (if v.1 then [Ev errorf tt] else [])
        ++ trace h (watchServices_srvs (byKey curr) rest) u2
        ++ trace h (watchServices_nss post) u3)
     ∧ creations (trace h watchServices w) =
         creations (trace h (watchServices_nss pre) w0)
         ++ List.filter (wanted (byKey curr)) (earlier ++ srv :: rest)
         ++ creations (trace h (watchServices_nss post) u3)).
Proof.
  intros Hlist Hpre Hok. split.
  - intros got rderr w2 Hread warn.
    unfold watchServices. step Hlist.
    rewrite (watchServices_nss_app _ _ _ Hok), Hpre. cbn [fst snd].
    unfold world, trace. simpl. rewrite Hread. simpl. fold warn.
    by destruct (h _ warn w2) as [[] ?].
  - intros earlier srv rest curr rerr w2 w3 u u1 left crerr
      Hread Hreport Hlive Herror Hbuilding Hstopped Hu Hcreate errorf v u2 u3.
    assert (Hmap : byKey curr !! key (Service srv) = None) by by apply byKey_None.
    assert (Hskip : notRunningForAReason (Status srv) = false).
    { unfold notRunningForAReason. by rewrite !bool_decide_eq_false_2. }
    assert (Hloop : run h (watchServices_srvs (byKey curr) (earlier ++ srv :: rest)) w3 =
              (tt, u3,
               trace h (watchServices_srvs (byKey curr) earlier) w3
               ++ Ev (createServiceInRuntime srv) (left, Some crerr)
               :: Ev (logger_V logger.ErrorLevel) v.1
               :: (if v.1 then [Ev errorf tt] else [])
               ++ trace h (watchServices_srvs (byKey curr) rest) u2)).
    { rewrite watchServices_srvs_app, Hu. unfold world at 1, trace at 2.
      by rewrite (watchServices_srvs_create_failure _ _ _ _ _ _ _ Hmap Hskip Hcreate). }
    assert (Hrun : run h watchServices w =
       (tt, world h (watchServices_nss post) u3,
        Ev listNamespaces (pre ++ ns :: post, None)
        :: trace h (watchServices_nss pre) w0
        ++ Ev (readServices ns runtime.zeroService) (earlier ++ srv :: rest, None)
        :: Ev (runtime_Read [runtime.ReadNamespace ns]) (curr, rerr)
        :: trace h (watchServices_srvs (byKey curr) earlier) w3
        ++ Ev (createServiceInRuntime srv) (left, Some crerr)
        :: Ev (logger_V logger.ErrorLevel) v.1
        :: (if v.1 then [Ev errorf tt] else [])
        ++ trace h (watchServices_srvs (byKey curr) rest) u2
        ++ trace h (watchServices_nss post) u3)).
    { unfold watchServices. step Hlist.
      rewrite (watchServices_nss_app _ _ _ Hok), Hpre. cbn [fst snd].
      unfold world at 1, trace at 2. cbn [watchServices_nss].
      step Hread. step Hreport. rewrite run_bind, Hloop. cbn [fst snd].
      unfold world, trace. do 4 f_equal. rewrite <- !app_assoc. simpl.
      by rewrite <- !app_assoc. }
    split; [exact Hrun|].
    unfold trace at 1. rewrite Hrun. cbn [snd]. unfold creations.
    cbn [omap list_omap created]. rewrite omap_app. f_equal.
    cbn [omap list_omap created].
    change (omap created ?t) with (creations t).
    rewrite List.filter_app. cbn [List.filter].
    assert (Hwanted : wanted (byKey curr) srv = true).
    { unfold wanted. by rewrite bool_decide_eq_true_2, Hskip. }
    rewrite Hwanted. unfold creations. rewrite omap_app. cbn [omap list_omap created].
    rewrite <- !app_assoc. f_equal; [apply watchServices_srvs_attempts|].
    simpl. f_equal. destruct v.1; cbn [app omap list_omap created];
      rewrite omap_app; f_equal; apply watchServices_srvs_attempts.
Qed.

End Properties.

(** ** Runs in the reference world *)

Section Runs.

#[local] Existing Instance sim.stub.

(** The reference world after Create of billing without a builder. *)
Example Create_fresh_gives_deployed :
  run sim.handle (Create None sim.billing []) sim.fresh
  = (None, sim.deployed,
     [Ev time_Now sim.noon;
      Ev (checkoutSource sim.billing_record)
         (sim.billing_record, "github.com/micro/services/billing", None);
      Ev (createServiceInRuntime sim.billing_record) (sim.billing_record, None);
      Ev (writeService sim.billing_record) (sim.billing_record, None)]).
Proof. reflexivity. Qed.

(** Create with a builder in the empty world: nil, and no call of the
    backend. *)
Lemma Create_builder_pending_then_returns_witness :
  result sim.handle (Create (Some tt) sim.billing []) sim.fresh = None
  ∧ Forall (λ e, source_or_backend e = false)
      (trace sim.handle (Create (Some tt) sim.billing []) sim.fresh).
Proof.
  edestruct (Create_builder_pending_then_returns sim.handle tt sim.billing [] sim.fresh)
    as (Hres & _ & _ & Hcalls); [reflexivity | reflexivity |].
  split; [exact Hres | exact Hcalls].
Defined.

(** Update and Delete of billing in the empty world. *)
Lemma Update_Delete_not_found_witness :
  result sim.handle (Update None sim.billing []) sim.fresh = Some runtime.ErrNotFound
  ∧ world sim.handle (Update None sim.billing []) sim.fresh = sim.fresh
  ∧ result sim.handle (Delete sim.billing []) sim.fresh = Some runtime.ErrNotFound
  ∧ world sim.handle (Delete sim.billing []) sim.fresh = sim.fresh.
Proof.
  destruct (Update_Delete_not_found sim.handle None sim.billing [] [] sim.fresh sim.fresh
              sim.fresh eq_refl eq_refl) as [[HU _] [HD _]].
  unfold result, world. rewrite HU, HD. repeat split.
Defined.


(** After Delete the record is gone from what Read returns, while the
    cleanup of the blob store has only been started. *)
Example Delete_then_Read_excludes_record :
  let after := world sim.handle (Delete sim.billing []) sim.deployed in
  result sim.handle (Read []) after = Done ([], None)
  ∧ sim.started after = [cleanupBlobStore sim.billing_record].
Proof. split; reflexivity. Qed.

(** Update of billing with a new source reference, a day after it was
    stored: the record written has the new source, the new time, the
    status Starting and no error. *)
Lemma Update_no_builder_starting_witness :
  let srv :=
    runtime.mkService "billing" "" "github.com/micro/services/billing@v2" None
      runtime.Unknown in
  let starting :=
    mkservice
      (runtime.mkService "billing" "latest" "github.com/micro/services/billing@v2" (Some ∅)
         runtime.Unknown)
      (runtime.mkCreateOptions "micro") runtime.Starting cases.next_day "" in
  result sim.handle (Update None srv []) cases.deployed_next_day = None
  ∧ omap persisted (trace sim.handle (Update None srv []) cases.deployed_next_day)
    = [starting]
  ∧ sim.store (world sim.handle (Update None srv []) cases.deployed_next_day) = [starting].
Proof.
  intros srv starting.
  edestruct (Update_no_builder_starting sim.handle srv [] cases.deployed_next_day)
    as (Hrun & Hwritten);
    [reflexivity | reflexivity | reflexivity | reflexivity | reflexivity |].
  split; [exact (f_equal (λ x, x.1.1) Hrun)|].
  split; [exact Hwritten | exact (f_equal (λ x, sim.store x.1.2) Hrun)].
Defined.

(** Delete of billing when the backend has lost the instance: the
    backend answers ErrNotFound, the record is deleted, the cleanup is
    started, Delete returns nil. *)
Lemma Delete_existing_store_then_cleanup_witness :
  run sim.handle (Delete sim.billing []) sim.restarted
  = (None,
     sim.mkWorld sim.noon [] [] [] [cleanupBlobStore sim.billing_record] [],
     [Ev (readServices "micro" (nameVersion "billing" "latest")) ([sim.billing_record], None);
      Ev (Runtime_Delete (defaultVersion sim.billing) []) (Some runtime.ErrNotFound);
      Ev (deleteService sim.billing_record) (sim.billing_record, None);
      Ev (go (cleanupBlobStore sim.billing_record)) tt]).
Proof.
  exact (Delete_existing_store_then_cleanup sim.handle sim.billing []
           sim.restarted sim.restarted sim.restarted (sim.set_store [] sim.restarted)
           sim.billing_record sim.billing_record [] (Some runtime.ErrNotFound) None
           eq_refl eq_refl eq_refl).
Defined.

(** Read of billing, stored at noon and running. *)
Lemma Read_live_running_started_witness :
  ∃ out r md,
    result sim.handle (Read []) sim.deployed = Done (out, None)
    ∧ length out = 1
    ∧ out !! 0 = Some r
    ∧ runtime.Name r = "billing"
    ∧ runtime.Version r = "latest"
    ∧ runtime.Status r = runtime.Running
    ∧ runtime.Metadata r = Some md
    ∧ md !! "started" = Some "2020-07-14T12:00:00Z".
Proof.
  apply (Read_live_running_started sim.handle [] sim.deployed sim.deployed sim.deployed
           [sim.billing_record] [sim.billing_live] 0 sim.billing_record sim.billing_live).
  - reflexivity.
  - reflexivity.
  - repeat constructor. unfold allocated. simpl. discriminate.
  - reflexivity.
  - reflexivity.
  - vm_compute. reflexivity.
  - reflexivity.
Defined.

(** A pass after the backend lost the instance: the fourth call of the
    pass creates billing again. *)
Lemma watchServices_creates_only_missing_runnable_witness :
  let e := Ev (createServiceInRuntime sim.billing_record) (sim.billing_record, None) in
  (Status sim.billing_record ≠ runtime.Error
   ∧ Status sim.billing_record ≠ runtime.Building
   ∧ Status sim.billing_record ≠ runtime.Stopped)
  ∧ ∃ ns srvs curr rerr before between after,
      trace sim.handle watchServices sim.restarted =
        before
        ++ Ev (readServices ns runtime.zeroService) (srvs, None)
           :: Ev (runtime_Read [runtime.ReadNamespace ns]) (curr, rerr)
           :: between ++ e :: after
      ∧ 3 = length before + 2 + length between
      ∧ Forall (λ e', store_read e' = false) between
      ∧ sim.billing_record ∈ srvs
      ∧ ∀ v, v ∈ curr →
          ¬ (runtime.Name v = "billing" ∧ runtime.Version v = "latest").
Proof.
  intros e.
  apply (watchServices_creates_only_missing_runnable sim.handle sim.restarted 3 e
           sim.billing_record); reflexivity.
Defined.

(** A pass over two namespaces with a backend that refuses creations: the
    creation of billing fails, is logged, and the pass goes on to the
    second namespace; the read of its records fails, is logged, and the
    pass ends. *)
Lemma watchServices_read_failure_ends_create_failure_continues_witness :
  trace cases.handle_refusing watchServices sim.degraded
  = [Ev listNamespaces (["micro"; "staging"], None);
     Ev (readServices "micro" runtime.zeroService) ([sim.billing_record], None);
     Ev (runtime_Read [runtime.ReadNamespace "micro"]) ([], None);
     Ev (createServiceInRuntime sim.billing_record)
        (sim.billing_record, Some cases.unavailable);
     Ev (logger_V logger.ErrorLevel) true;
     Ev (logger_Errorf "Error restarting service: %v" [logger.ArgError cases.unavailable]) tt;
     Ev (readServices "staging" runtime.zeroService)
        ([], Some (runtime.ErrOther "store: read failed"));
     Ev (logger_Warnf "Error reading services from the %v namespace: %v"
           [logger.ArgString "staging";
            logger.ArgError (runtime.ErrOther "store: read failed")]) tt]
  ∧ creations (trace cases.handle_refusing watchServices sim.degraded)
    = [sim.billing_record].
Proof.
  split.
  - edestruct (watchServices_read_failure_ends_create_failure_continues
                 cases.handle_refusing ["micro"] [] "staging" sim.degraded sim.degraded)
      as [Hfails _]; [reflexivity | reflexivity | repeat constructor |].
    exact (f_equal snd
             (Hfails [] (runtime.ErrOther "store: read failed") _ eq_refl)).
  - edestruct (watchServices_read_failure_ends_create_failure_continues
                 cases.handle_refusing [] ["staging"] "micro" sim.degraded sim.degraded)
      as [_ Hgoes]; [reflexivity | reflexivity | constructor |].
    destruct (Hgoes [] sim.billing_record [] [] None sim.degraded sim.degraded
                sim.degraded sim.degraded sim.billing_record cases.unavailable)
      as [_ Hattempts];
      [ reflexivity | reflexivity | intros v Hv; by apply elem_of_nil in Hv
      | discriminate | discriminate | discriminate | reflexivity | reflexivity | ].
    exact Hattempts.
Defined.

(** C3.  The store holds a record whose build failed; the backend reports
    a live instance of the same name and version with the status Error and
    the error annotation exit status 1.  Read returns the record with the
    status of the live instance, but the live annotation is stored under the
    metadata key status, and the key error keeps the stored message. *)
Theorem Read_live_error_lands_under_status :
  ∃ r md,
    result sim.handle (Read []) sim.crashed = Done ([r], None)
    ∧ runtime.Status r = runtime.Status sim.crashed_live
    ∧ index (runtime.Metadata sim.crashed_live) "error" = "exit status 1"
    ∧ runtime.Metadata r = Some md
    ∧ md !! "status" = Some "exit status 1"
    ∧ md !! "error" = Some "build failed".
Proof.
  eexists _, _. split; [vm_compute; reflexivity|]. vm_compute. repeat split.
Qed.

End Runs.

(** ** Further properties of the manager *)

Section MoreProperties.

Context `{platform : Platform} {W : Type} (h : handler W).

Ltac step H := erewrite run_Vis by exact H; cbn [fst snd].

(** *** Update with a builder *)

(** X1.  With a builder configured, Update of a record the store holds
    writes the first record read with the source reference of the request,
    the current time and the status Pending, and with every other field as
    stored: the options and the error message are kept (the path without a
    builder clears the message, this one does not), and so are the name,
    the version, the metadata and the status of the runtime service.  The
    error of the write is returned if there is one; otherwise Update
    starts the task buildAndUpdate with [go] and returns nil.  It resolves
    no source and calls no backend. *)
Theorem Update_builder_pending_then_returns
    (b : Builder) (srv : runtime.Service) (opts : list runtime.UpdateOption)
    (w w1 w2 w3 : W) (now : Time) (stored written : service) (others : list service)
    (werr : option runtime.error) :
  let read :=
    readServices (runtime.UpdateNamespace (Update_options opts))
      (nameVersion (runtime.Name (defaultVersion srv))
         (runtime.Version (defaultVersion srv))) in
  let pending :=
    mkservice
      (runtime.mkService (runtime.Name (Service stored)) (runtime.Version (Service stored))
         (runtime.Source srv) (runtime.Metadata (Service stored))
         (runtime.Status (Service stored)))
      (Options stored) runtime.Pending now (Error stored) in
  h _ read w = ((stored :: others, None), w1) →
  h _ time_Now w1 = (now, w2) →
  h _ (writeService pending) w2 = ((written, werr), w3) →
  run h (Update (Some b) srv opts) w =
    match werr with
    | Some e =>
        (Some e, w3,
         [Ev read (stored :: others, None); Ev time_Now now;
          Ev (writeService pending) (written, werr)])
    | None =>
        (None, (h _ (go (buildAndUpdate written)) w3).2,
         [Ev read (stored :: others, None); Ev time_Now now;
          Ev (writeService pending) (written, werr);
          Ev (go (buildAndUpdate written)) tt])
    end
  ∧ omap persisted (trace h (Update (Some b) srv opts) w) = [pending]
  ∧ Forall (λ e, source_or_backend e = false) (trace h (Update (Some b) srv opts) w).
Proof.
  intros read pending Hread Hnow Hwrite.
  assert (Hsrc : runtime.Source (defaultVersion srv) = runtime.Source srv).
  { unfold defaultVersion. by destruct (empty _). }
  assert (Hrun : run h (Update (Some b) srv opts) w =
    match werr with
    | Some e =>
        (Some e, w3,
         [Ev read (stored :: others, None); Ev time_Now now;
          Ev (writeService pending) (written, werr)])
    | None =>
        (None, (h _ (go (buildAndUpdate written)) w3).2,
         [Ev read (stored :: others, None); Ev time_Now now;
          Ev (writeService pending) (written, werr);
          Ev (go (buildAndUpdate written)) tt])
    end).
  { unfold Update. fold read. step Hread. step Hnow. rewrite Hsrc.
    step Hwrite. destruct werr as [e|]; [reflexivity|].
    simpl. by destruct (h _ (go (buildAndUpdate written)) w3) as [[] ?]. }
  split; [exact Hrun|]. unfold trace. rewrite Hrun.
  destruct werr; (split; [reflexivity | repeat constructor]).
Qed.

(** *** Errors of the queries *)

(** X2.  Read asks the store first and the backend second.  An error of
    the store is returned with no services and the backend is not asked;
    an error of the backend is returned with no services, whatever the
    store returned.  Only when both succeed Read builds its result, from
    the records and the report. *)
Theorem Read_query_errors
    (opts : list runtime.ReadOption) (w w1 w2 : W)
    (srvs : list service) (rSrvs : list runtime.Service)
    (serr rerr : option runtime.error) :
  let options := Read_options opts in
  let read :=
    readServices (runtime.ReadOptNamespace options)
      (nameVersion (runtime.ReadService options) (runtime.ReadVersion options)) in
  h _ read w = ((srvs, serr), w1) →
  h _ (Runtime_Read opts) w1 = ((rSrvs, rerr), w2) →
  run h (Read opts) w =
    match serr, rerr with
    | Some e, _ => (Done ([], Some e), w1, [Ev read (srvs, serr)])
    | None, Some e =>
        (Done ([], Some e), w2, [Ev read (srvs, serr); Ev (Runtime_Read opts) (rSrvs, rerr)])
    | None, None =>
        (outcome_bind (Read_loop (byKey rSrvs) srvs) (λ out, Done (out, None)), w2,
         [Ev read (srvs, serr); Ev (Runtime_Read opts) (rSrvs, rerr)])
    end.
Proof.
  intros options read Hread Hlive. unfold Read. fold options. fold read.
  step Hread. destruct serr as [e|]; [reflexivity|].
  step Hlive. by destruct rerr.
Qed.

(** X3.  When the store read of Update, or of Delete, answers with an
    error, the call returns this error and makes no other call, also when
    the read returned records next to the error. *)
Theorem Update_Delete_read_error
    (DefaultBuilder : option Builder) (srv : runtime.Service)
    (uopts : list runtime.UpdateOption) (dopts : list runtime.DeleteOption)
    (w wu wd : W) (usrvs dsrvs : list service) (uerr derr : runtime.error) :
  let filter :=
    nameVersion (runtime.Name (defaultVersion srv)) (runtime.Version (defaultVersion srv)) in
  let uread := readServices (runtime.UpdateNamespace (Update_options uopts)) filter in
  let dread := readServices (runtime.DeleteNamespace (Delete_options dopts)) filter in
  h _ uread w = ((usrvs, Some uerr), wu) →
  h _ dread w = ((dsrvs, Some derr), wd) →
  run h (Update DefaultBuilder srv uopts) w = (Some uerr, wu, [Ev uread (usrvs, Some uerr)])
  ∧ run h (Delete srv dopts) w = (Some derr, wd, [Ev dread (dsrvs, Some derr)]).
Proof.
  intros filter uread dread Hu Hd. split.
  - unfold Update. fold filter. fold uread. by step Hu.
  - unfold Delete. fold filter. fold dread. by step Hd.
Qed.

(** *** Start and Stop from the other state *)

(** X4.  Start on a manager that is not running sets the flag and starts
    the backend.  When the backend starts, Start launches watchServices
    with [go] and returns nil.  When the backend fails to start, Start
    returns the error and launches nothing, but the flag stays set: a
    Start that follows returns nil without starting the backend. *)
Theorem Start_from_stopped (w w1 : W) (err : option runtime.error) :
  h _ DefaultRuntime_Start w = (err, w1) →
  run h (Start (mkmanager false)) w =
    match err with
    | Some e => ((mkmanager true, Some e), w1, [Ev DefaultRuntime_Start err])
    | None =>
        ((mkmanager true, None), (h _ (go watchServicesTask) w1).2,
         [Ev DefaultRuntime_Start err; Ev (go watchServicesTask) tt])
    end
  ∧ ∀ w', run h (Start (result h (Start (mkmanager false)) w).1) w' =
          ((mkmanager true, None), w', []).
Proof.
  intros Hstart.
  assert (Hrun : run h (Start (mkmanager false)) w =
    match err with
    | Some e => ((mkmanager true, Some e), w1, [Ev DefaultRuntime_Start err])
    | None =>
        ((mkmanager true, None), (h _ (go watchServicesTask) w1).2,
         [Ev DefaultRuntime_Start err; Ev (go watchServicesTask) tt])
    end).
  { unfold Start. cbn [running]. step Hstart. destruct err as [e|]; [reflexivity|].
    simpl. by destruct (h _ (go watchServicesTask) w1) as [[] ?]. }
  split; [exact Hrun|]. intros w'. unfold result. rewrite Hrun. by destruct err.
Qed.

(** X5.  Stop on a running manager clears the flag, stops the backend
    once and returns what the backend returns; the flag is cleared also
    when the backend fails to stop, so the next Start starts the backend
    again. *)
Theorem Stop_from_running (w w1 : W) (err : option runtime.error) :
  h _ DefaultRuntime_Stop w = (err, w1) →
  run h (Stop (mkmanager true)) w = ((mkmanager false, err), w1, [Ev DefaultRuntime_Stop err])
  ∧ ∀ w',
      head (trace h (Start (result h (Stop (mkmanager true)) w).1) w')
      = Some (Ev DefaultRuntime_Start (h _ DefaultRuntime_Start w').1).
Proof.
  intros Hstop.
  assert (Hrun : run h (Stop (mkmanager true)) w =
                   ((mkmanager false, err), w1, [Ev DefaultRuntime_Stop err])).
  { unfold Stop. cbn [running negb]. by step Hstop. }
  split; [exact Hrun|]. intros w'. unfold result. rewrite Hrun. reflexivity.
Qed.

(** *** The reconciliation pass, further *)

(** X6.  When the listing of the namespaces fails, a pass of
    watchServices logs a warning and ends: it reads no records and creates
    nothing, also when the listing returned namespaces next to the error. *)
Theorem watchServices_list_error
    (w w1 : W) (nss : list string) (err : runtime.error) :
  let warn := logger_Warnf "Error listing namespaces: %v" [logger.ArgError err] in
  h _ listNamespaces w = ((nss, Some err), w1) →
  run h watchServices w =
    (tt, (h _ warn w1).2, [Ev listNamespaces (nss, Some err); Ev warn tt]).
Proof.
  intros warn Hlist. unfold watchServices. step Hlist. fold warn. simpl.
  by destruct (h _ warn w1) as [[] ?].
Qed.

(** X7.  The loop over the records of a namespace attempts one creation
    for each record that is absent from the map [running] and whose status
    is none of Error, Building and Stopped, in the order of the records,
    and none for any other record; a creation that fails does not change
    what is attempted after it. *)
Theorem watchServices_srvs_creations
    (running : gmap string runtime.Service) (srvs : list service) (w : W) :
  creations (trace h (watchServices_srvs running srvs) w)
  = List.filter (wanted running) srvs.
Proof.
  unfold creations, wanted. revert w.
  induction srvs as [|s srvs IH]; intros w; [done|].
  cbn [watchServices_srvs List.filter].
  destruct (running !! key (Service s)) as [v|] eqn:Hlive.
  { rewrite bool_decide_eq_false_2 by done. apply IH. }
  rewrite bool_decide_eq_true_2 by done. cbn [andb].
  destruct (notRunningForAReason (Status s)); cbn [negb]; [apply IH|].
  rewrite trace_Vis. destruct (h _ (createServiceInRuntime s) w) as [[s' err] w1].
  cbn [fst snd omap list_omap created]. f_equal.
  destruct err as [err|]; [|apply IH].
  rewrite trace_Vis. destruct (h _ (logger_V logger.ErrorLevel) w1) as [v w2].
  cbn [fst snd omap list_omap created]. destruct v; [|apply IH].
  rewrite trace_Vis. cbn [fst snd omap list_omap created]. apply IH.
Qed.

Lemma watchServices_srvs_within
    (running : gmap string runtime.Service) (srvs : list service) (w : W) :
  within [KCreateInRuntime; KLog] (trace h (watchServices_srvs running srvs) w).
Proof.
  unfold within. revert w. induction srvs as [|s srvs IH]; intros w; simpl; [constructor|].
  destruct (running !! key (Service s)); [apply IH|].
  destruct (notRunningForAReason (Status s)); [apply IH|].
  rewrite trace_Vis. destruct (h _ (createServiceInRuntime s) w) as [[s' err] w1].
  cbn [fst snd]. constructor; [set_solver|].
  destruct err as [err|]; [|apply IH].
  rewrite trace_Vis. destruct (h _ (logger_V logger.ErrorLevel) w1) as [v w2].
  cbn [fst snd]. constructor; [set_solver|].
  destruct v; [|apply IH].
  rewrite trace_Vis. constructor; [set_solver | apply IH].
Qed.

Lemma watchServices_nss_within (nss : list string) (w : W) :
  within [KReadServices; KRuntimeRead; KCreateInRuntime; KLog]
    (trace h (watchServices_nss nss) w).
Proof.
  unfold within. revert w. induction nss as [|ns nss IH]; intros w; simpl; [constructor|].
  rewrite trace_Vis. destruct (h _ (readServices ns runtime.zeroService) w) as [[srvs err] w1].
  cbn [fst snd]. constructor; [set_solver|].
  destruct err as [err|].
  { rewrite trace_Vis. constructor; [set_solver | constructor]. }
  rewrite trace_Vis.
  destruct (h _ (runtime_Read [runtime.ReadNamespace ns]) w1) as [[curr rerr] w2].
  cbn [fst snd]. constructor; [set_solver|].
  rewrite trace_bind. apply Forall_app. split; [|apply IH].
  eapply Forall_impl; [apply watchServices_srvs_within|].
  intros e. rewrite !elem_of_cons. tauto.
Qed.

(** X8.  A pass of watchServices lists the namespaces, reads the store,
    asks the backend for its report, creates services and logs, and makes
    no other call: it never writes or deletes a record of the store, never
    updates or deletes a service in the backend, never resolves a source
    and starts no task; the outcome of a creation is not recorded in the
    store. *)
Theorem watchServices_only_reads_creates_logs (w : W) :
  within [KListNamespaces; KReadServices; KRuntimeRead; KCreateInRuntime; KLog]
    (trace h watchServices w).
Proof.
  unfold within, watchServices. rewrite trace_Vis.
  destruct (h _ listNamespaces w) as [[nss err] w1]. cbn [fst snd].
  constructor; [set_solver|]. destruct err as [err|].
  - rewrite trace_Vis. constructor; [set_solver | constructor].
  - eapply Forall_impl; [apply watchServices_nss_within|].
    intros e. rewrite !elem_of_cons. tauto.
Qed.

(** *** Read, further *)

(** What the loop body of Read does to a record with an allocated
    metadata map, key by key. *)
Lemma Read_merge_fields
    (rSrvMap : gmap string runtime.Service) (s : service) (md0 : gmap string string) :
  runtime.Metadata (Service s) = Some md0 →
  ∃ r md,
    Read_merge rSrvMap s = Done r
    ∧ runtime.Metadata r = Some md
    ∧ runtime.Name r = runtime.Name (Service s)
    ∧ runtime.Version r = runtime.Version (Service s)
    ∧ runtime.Source r = runtime.Source (Service s)
    ∧ (∀ k, k ≠ "error" → k ≠ "started" → k ≠ "status" → md !! k = md0 !! k)
    ∧ md !! "error" = (if empty (Error s) then md0 !! "error" else Some (Error s))
    ∧ md !! "started" =
        (if IsZero (UpdatedAt s) then md0 !! "started"
         else Some (Format (UpdatedAt s) RFC3339))
    ∧ (rSrvMap !! key (Service s) = None →
       runtime.Status r = stored_status s ∧ md !! "status" = md0 !! "status").
Proof.
  intros Hmd0. unfold Read_merge, assign, stored_status.
  destruct s as [[name version source md status] options stored updated err].
  simpl in Hmd0 |- *. subst md.
  destruct (rSrvMap !! _) as [rs|];
    [destruct (bool_decide (runtime.Metadata rs ≠ None)
               && negb (empty (index (runtime.Metadata rs) "error")))|];
    destruct (bool_decide (stored ≠ runtime.Unknown)), (empty err), (IsZero updated);
    simpl; eexists _, _;
    (split; [reflexivity|]); (split; [reflexivity|]);
    (split; [reflexivity|]); (split; [reflexivity|]); (split; [reflexivity|]);
    (split; [by intros; simplify_map_eq|]);
    (split; [by simplify_map_eq|]); (split; [by simplify_map_eq|]);
    by (intros; simplify_map_eq).
Qed.

(** Under successful queries and allocated records, Read returns at each
    position what its loop body gives for the record at that position. *)
Lemma Read_at
    (opts : list runtime.ReadOption) (w w1 w2 : W)
    (srvs : list service) (rSrvs : list runtime.Service) (i : nat) (s : service) :
  let options := Read_options opts in
  h _ (readServices (runtime.ReadOptNamespace options)
         (nameVersion (runtime.ReadService options) (runtime.ReadVersion options))) w
    = ((srvs, None), w1) →
  h _ (Runtime_Read opts) w1 = ((rSrvs, None), w2) →
  Forall allocated srvs →
  srvs !! i = Some s →
  ∃ out r,
    result h (Read opts) w = Done (out, None)
    ∧ length out = length srvs
    ∧ out !! i = Some r
    ∧ Read_merge (byKey rSrvs) s = Done r.
Proof.
  intros options Hstore Hlive Hal Hi.
  destruct (Read_loop_allocated (byKey rSrvs) srvs Hal) as (out & Hloop & Hlen & Hout).
  destruct (Hout i s Hi) as (r & Hr & Hmerge).
  exists out, r. repeat split; try done.
  unfold result, Read. fold options. step Hstore. step Hlive. simpl. by rewrite Hloop.
Qed.

(** X9.  Read returns one service for each record of the store, in the
    order of the store.  The service keeps the name, the version and the
    source of the record and every metadata entry of the record under a
    key other than error, started and status; the key error holds the
    stored error message when there is one, the key started holds the
    UpdatedAt in the RFC3339 layout when it is set, and both keys keep the
    entry of the record otherwise. *)
Theorem Read_keeps_record
    (opts : list runtime.ReadOption) (w w1 w2 : W)
    (srvs : list service) (rSrvs : list runtime.Service)
    (i : nat) (s : service) (md0 : gmap string string) :
  let options := Read_options opts in
  h _ (readServices (runtime.ReadOptNamespace options)
         (nameVersion (runtime.ReadService options) (runtime.ReadVersion options))) w
    = ((srvs, None), w1) →
  h _ (Runtime_Read opts) w1 = ((rSrvs, None), w2) →
  Forall allocated srvs →
  srvs !! i = Some s →
  runtime.Metadata (Service s) = Some md0 →
  ∃ out r md,
    result h (Read opts) w = Done (out, None)
    ∧ length out = length srvs
    ∧ out !! i = Some r
    ∧ runtime.Name r = runtime.Name (Service s)
    ∧ runtime.Version r = runtime.Version (Service s)
    ∧ runtime.Source r = runtime.Source (Service s)
    ∧ runtime.Metadata r = Some md
    ∧ (∀ k, k ≠ "error" → k ≠ "started" → k ≠ "status" → md !! k = md0 !! k)
    ∧ md !! "error" = (if empty (Error s) then md0 !! "error" else Some (Error s))
    ∧ md !! "started" =
        (if IsZero (UpdatedAt s) then md0 !! "started"
         else Some (Format (UpdatedAt s) RFC3339)).
Proof.
  intros options Hstore Hlive Hal Hi Hmd0.
  destruct (Read_at opts w w1 w2 srvs rSrvs i s Hstore Hlive Hal Hi)
    as (out & r & Hres & Hlen & Hr & Hmerge).
  destruct (Read_merge_fields (byKey rSrvs) s md0 Hmd0)
    as (r' & md & Hmerge' & Hmd & Hn & Hv & Hsrc & Hframe & Herr & Hst & _).
  rewrite Hmerge in Hmerge'. injection Hmerge' as <-.
  by exists out, r, md.
Qed.

(** X10.  For a record for which the backend reports no instance under
    its name and version (a service that is still being built, say), Read
    returns the stored status, or the status field of the stored runtime
    service when the stored status is Unknown, and leaves the metadata key
    status as the record has it. *)
Theorem Read_not_live_stored_status
    (opts : list runtime.ReadOption) (w w1 w2 : W)
    (srvs : list service) (rSrvs : list runtime.Service)
    (i : nat) (s : service) (md0 : gmap string string) :
  let options := Read_options opts in
  h _ (readServices (runtime.ReadOptNamespace options)
         (nameVersion (runtime.ReadService options) (runtime.ReadVersion options))) w
    = ((srvs, None), w1) →
  h _ (Runtime_Read opts) w1 = ((rSrvs, None), w2) →
  Forall allocated srvs →
  srvs !! i = Some s →
  runtime.Metadata (Service s) = Some md0 →
  live_instance rSrvs (runtime.Name (Service s)) (runtime.Version (Service s)) = None →
  ∃ out r md,
    result h (Read opts) w = Done (out, None)
    ∧ out !! i = Some r
    ∧ runtime.Status r = stored_status s
    ∧ runtime.Metadata r = Some md
    ∧ md !! "status" = md0 !! "status".
Proof.
  intros options Hstore Hlive Hal Hi Hmd0 Hnone.
  destruct (Read_at opts w w1 w2 srvs rSrvs i s Hstore Hlive Hal Hi)
    as (out & r & Hres & Hlen & Hr & Hmerge).
  destruct (Read_merge_fields (byKey rSrvs) s md0 Hmd0)
    as (r' & md & Hmerge' & Hmd & _ & _ & _ & _ & _ & _ & Hstatus).
  rewrite Hmerge in Hmerge'. injection Hmerge' as <-.
  destruct (Hstatus Hnone) as [Hs Hk].
  by exists out, r, md.
Qed.

(** The loop body of Read panics exactly on a record with a nil metadata
    map for which it has something to write. *)
Lemma Read_merge_outcome (rSrvMap : gmap string runtime.Service) (s : service) :
  if bool_decide (runtime.Metadata (Service s) = None) && writes_metadata rSrvMap s
  then Read_merge rSrvMap s = Panic "assignment to entry in nil map"
  else ∃ r, Read_merge rSrvMap s = Done r.
Proof.
  unfold Read_merge, assign, writes_metadata.
  destruct s as [[name version source md status] options stored updated err]. simpl.
  destruct md as [md|]; simpl.
  - destruct (rSrvMap !! _) as [rs|];
      [destruct (bool_decide (runtime.Metadata rs ≠ None)
                 && negb (empty (index (runtime.Metadata rs) "error")))|];
      destruct (bool_decide (stored ≠ runtime.Unknown)), (empty err), (IsZero updated);
      simpl; by eexists.
  - destruct (rSrvMap !! _) as [rs|];
      [destruct (bool_decide (runtime.Metadata rs ≠ None)
                 && negb (empty (index (runtime.Metadata rs) "error")))|];
      destruct (bool_decide (stored ≠ runtime.Unknown)), (empty err), (IsZero updated);
      simpl; try reflexivity; by eexists.
Qed.

Lemma Read_loop_outcome (rSrvMap : gmap string runtime.Service) (srvs : list service) :
  if existsb (λ s, bool_decide (runtime.Metadata (Service s) = None)
                   && writes_metadata rSrvMap s) srvs
  then Read_loop rSrvMap srvs = Panic "assignment to entry in nil map"
  else ∃ out, Read_loop rSrvMap srvs = Done out ∧ length out = length srvs.
Proof.
  induction srvs as [|s srvs IH]; simpl; [by exists []|].
  pose proof (Read_merge_outcome rSrvMap s) as Hs.
  destruct (bool_decide (runtime.Metadata (Service s) = None) && writes_metadata rSrvMap s);
    simpl.
  - by rewrite Hs.
  - destruct Hs as [r ->]. simpl.
    destruct (existsb _ srvs).
    + by rewrite IH.
    + destruct IH as (out & -> & Hlen). simpl. exists (r :: out). by rewrite <- Hlen.
Qed.

(** X11.  Under successful queries Read panics (assignment to entry in
    nil map) exactly when the store returned a record whose metadata map
    is nil and for which Read has an entry to write: a stored error
    message, a set UpdatedAt, or an error annotation of its live
    instance.  In every other case Read returns one service per record and
    no error. *)
Theorem Read_panics_on_nil_metadata
    (opts : list runtime.ReadOption) (w w1 w2 : W)
    (srvs : list service) (rSrvs : list runtime.Service) :
  let options := Read_options opts in
  h _ (readServices (runtime.ReadOptNamespace options)
         (nameVersion (runtime.ReadService options) (runtime.ReadVersion options))) w
    = ((srvs, None), w1) →
  h _ (Runtime_Read opts) w1 = ((rSrvs, None), w2) →
  if existsb (λ s, bool_decide (runtime.Metadata (Service s) = None)
                   && writes_metadata (byKey rSrvs) s) srvs
  then result h (Read opts) w = Panic "assignment to entry in nil map"
  else ∃ out, result h (Read opts) w = Done (out, None) ∧ length out = length srvs.
Proof.
  intros options Hstore Hlive.
  assert (Hres : result h (Read opts) w =
            outcome_bind (Read_loop (byKey rSrvs) srvs) (λ out, Done (out, None))).
  { unfold result, Read. fold options. step Hstore. by step Hlive. }
  rewrite Hres. pose proof (Read_loop_outcome (byKey rSrvs) srvs) as Hloop.
  destruct (existsb _ srvs).
  - by rewrite Hloop.
  - destruct Hloop as (out & -> & Hlen). by exists out.
Qed.

(** *** What each operation can call *)

(** Walks a trace call by call, with a case for every reply. *)
Ltac walk :=
  repeat first
    [ rewrite trace_Ret
    | rewrite trace_Vis;
      match goal with
      | |- context [h ?X ?op ?w] => destruct (h X op w) as [? ?]; cbn [fst snd]
      end
    | match goal with
      | |- context [match ?x with _ => _ end] => destruct x
      end ].

(** X18.  What each operation of the manager can call, whatever the
    collaborators answer.  Create never reads the store and deletes
    nothing: it does not look for a record with the same name and version
    before it writes.  Update never creates a service in the backend and
    deletes nothing.  Delete never creates or updates a service and never
    writes a record.  Read only queries: the store once, then the backend
    at most once. *)
Theorem operation_footprints
    (DefaultBuilder : option Builder) (srv : runtime.Service)
    (copts : list runtime.CreateOption) (uopts : list runtime.UpdateOption)
    (dopts : list runtime.DeleteOption) (ropts : list runtime.ReadOption) (w : W) :
  within [KNow; KCheckoutSource; KCreateInRuntime; KWriteService; KGo]
    (trace h (Create DefaultBuilder srv copts) w)
  ∧ within [KReadServices; KNow; KCheckoutSource; KUpdateInRuntime; KWriteService; KGo]
      (trace h (Update DefaultBuilder srv uopts) w)
  ∧ within [KReadServices; KRuntimeDelete; KDeleteService; KGo]
      (trace h (Delete srv dopts) w)
  ∧ within [KReadServices; KRuntimeRead] (trace h (Read ropts) w)
  ∧ (length (trace h (Read ropts) w) ≤ 2)%nat.
Proof.
  unfold within. repeat split.
  - unfold Create. walk; repeat constructor; set_solver.
  - unfold Update. walk; repeat constructor; set_solver.
  - unfold Delete. walk; repeat constructor; set_solver.
  - unfold Read. walk; repeat constructor; set_solver.
  - unfold Read. walk; simpl; lia.
Qed.

End MoreProperties.

(** ** The keys of Read and watchServices *)

Section Keys.

Lemma byKey_foldl_Some
    (l : list runtime.Service) (m : gmap string runtime.Service)
    (k : string) (v : runtime.Service) :
  foldl (λ m s, <[key s := s]> m) m l !! k = Some v →
  (∃ l1 l2, l = l1 ++ v :: l2 ∧ key v = k ∧ ∀ u, u ∈ l2 → key u ≠ k)
  ∨ (m !! k = Some v ∧ ∀ u, u ∈ l → key u ≠ k).
Proof.
  revert m. induction l as [|x l IH]; intros m Hm; simpl in Hm.
  - right. split; [done|]. intros u Hu. by apply elem_of_nil in Hu.
  - destruct (IH _ Hm) as [(l1 & l2 & -> & Hk & Hl2) | [Hx Hl]].
    + left. by exists (x :: l1), l2.
    + destruct (decide (key x = k)) as [Heq|Hne].
      * rewrite Heq, lookup_insert_eq in Hx. injection Hx as ->.
        left. by exists [], l.
      * rewrite lookup_insert_ne in Hx by done. right. split; [done|].
        intros u Hu. apply elem_of_cons in Hu as [->|Hu]; [done | by apply Hl].
Qed.

(** X12.  The map Read and watchServices build from a report of the
    backend holds, under a key, the last service of the report with this
    key: an earlier service with the same name and version is shadowed. *)
Theorem byKey_lookup_last
    (rSrvs : list runtime.Service) (k : string) (v : runtime.Service) :
  byKey rSrvs !! k = Some v ↔
  ∃ l1 l2, rSrvs = l1 ++ v :: l2 ∧ key v = k ∧ ∀ u, u ∈ l2 → key u ≠ k.
Proof.
  split.
  - intros Hv. destruct (byKey_foldl_Some _ _ _ _ Hv) as [H | [Hempty _]]; [done|].
    by rewrite lookup_empty in Hempty.
  - intros (l1 & l2 & -> & <- & Hl2). unfold byKey.
    rewrite foldl_app. simpl. rewrite byKey_foldl_fresh by done.
    apply lookup_insert_eq.
Qed.


Lemma colon_key_inj (n1 n2 v1 v2 : string) :
  colon_free n1 = true → colon_free n2 = true →
  n1 +:+ String ":"%char v1 = n2 +:+ String ":"%char v2 → n1 = n2 ∧ v1 = v2.
Proof.
  revert n2. induction n1 as [|c n1 IH]; intros [|d n2] H1 H2 Heq; simpl in *.
  - by injection Heq as ->.
  - injection Heq as Hd _. subst d. apply andb_true_iff in H2 as [H2 _].
    by rewrite Ascii.eqb_refl in H2.
  - injection Heq as Hc _. subst c. apply andb_true_iff in H1 as [H1 _].
    by rewrite Ascii.eqb_refl in H1.
  - injection Heq as Hc Heq. subst d.
    apply andb_true_iff in H1 as [_ H1]. apply andb_true_iff in H2 as [_ H2].
    destruct (IH _ H1 H2 Heq) as [-> ->]. done.
Qed.

(** X13.  Two services whose names contain no colon have the same key
    only if they have the same name and the same version: for such names
    the key identifies the service. *)
Theorem key_injective_without_colon (a b : runtime.Service) :
  colon_free (runtime.Name a) = true →
  colon_free (runtime.Name b) = true →
  key a = key b →
  runtime.Name a = runtime.Name b ∧ runtime.Version a = runtime.Version b.
Proof. unfold key. apply colon_key_inj. Qed.

End Keys.

Section KeyCollision.

Context `{platform : Platform} {W : Type} (h : handler W).


End KeyCollision.

(** ** The table of profiles *)

Section ProfileProperties.

Context {SetupFn : Type}.
Context (ClientSetup ServiceSetup TestSetup LocalSetup KubernetesSetup : SetupFn).


(** X15.  Register under a name that is free returns nil and binds the
    name: Load of the name then returns the registered profile, and Load
    of any other name returns what it returned before. *)
Theorem Register_then_Load
    (name : string) (p : @profile.Profile SetupFn) (tbl : gmap string (@profile.Profile SetupFn)) :
  (profile.Load name tbl).2 ≠ None →
  (profile.Register name p tbl).1 = None
  ∧ profile.Load name (profile.Register name p tbl).2 = (Some p, None)
  ∧ ∀ other, other ≠ name →
      profile.Load other (profile.Register name p tbl).2 = profile.Load other tbl.
Proof.
  unfold profile.Load, profile.Register. intros Hfree.
  destruct (tbl !! name) eqn:Hname; [done|]. simpl.
  rewrite lookup_insert_eq. repeat split.
  intros other Hne. by rewrite lookup_insert_ne.
Qed.

(** X16.  Register under a name that is bound returns the error profile
    <name> already exists and leaves the table as it is: the profile bound
    to the name is not replaced. *)
Theorem Register_taken
    (name : string) (p q : @profile.Profile SetupFn) (tbl : gmap string (@profile.Profile SetupFn)) :
  profile.Load name tbl = (Some q, None) →
  profile.Register name p tbl = (Some ("profile " +:+ name +:+ " already exists"), tbl)
  ∧ profile.Load name (profile.Register name p tbl).2 = (Some q, None).
Proof.
  unfold profile.Load, profile.Register. intros Hq.
  destruct (tbl !! name) eqn:Hname; [|done]. simpl. by rewrite Hname.
Qed.

Lemma RegisterAll_keeps
    (l : list (string * @profile.Profile SetupFn)) (tbl : gmap string (@profile.Profile SetupFn)) (name : string) (q : @profile.Profile SetupFn) :
  tbl !! name = Some q → profile.RegisterAll l tbl !! name = Some q.
Proof.
  unfold profile.RegisterAll. revert tbl.
  induction l as [|[n p] l IH]; intros tbl Hq; simpl; [done|].
  apply IH. unfold profile.Register.
  destruct (tbl !! n) eqn:Hn; simpl; [done|].
  rewrite lookup_insert_ne; [done|]. intros ->. by rewrite Hq in Hn.
Qed.

(** X17.  No sequence of Register calls changes a binding: the five
    built-in profiles stay loadable under their names, each with the name
    it is bound to, and a registration under one of these names is
    refused. *)
Theorem builtin_profiles_permanent
    (l : list (string * @profile.Profile SetupFn)) (name : string) (p : @profile.Profile SetupFn) :
  let tbl :=
    profile.RegisterAll l
      (profile.profiles ClientSetup ServiceSetup TestSetup LocalSetup KubernetesSetup) in
  name ∈ ["client"; "service"; "test"; "local"; "kubernetes"] →
  ∃ q,
    profile.Load name tbl = (Some q, None)
    ∧ profile.Name q = name
    ∧ profile.Register name p tbl
      = (Some ("profile " +:+ name +:+ " already exists"), tbl).
Proof.
  intros tbl Hname.
  assert (Hq : ∃ q, profile.profiles ClientSetup ServiceSetup TestSetup LocalSetup
                      KubernetesSetup !! name = Some q ∧ profile.Name q = name).
  { unfold profile.profiles. set_unfold.
    destruct Hname as [->|[->|[->|[->|[->|[]]]]]]; eexists; by simplify_map_eq. }
  destruct Hq as (q & Hq & Hn). exists q.
  apply (RegisterAll_keeps l) in Hq. fold tbl in Hq.
  unfold profile.Load, profile.Register. by rewrite Hq.
Qed.

End ProfileProperties.

(** ** More runs in the reference world *)

Section MoreRuns.

#[local] Existing Instance sim.stub.

(** Update of billing with a builder, a day after it was stored: the
    record is written as Pending with the new source and the new time, and
    the build is started. *)
Lemma Update_builder_pending_then_returns_witness :
  let pending :=
    mkservice
      (runtime.mkService "billing" "latest" "github.com/micro/services/billing@v2" (Some ∅)
         runtime.Unknown)
      (runtime.mkCreateOptions "micro") runtime.Pending cases.next_day "" in
  result sim.handle (Update (Some tt) cases.billing_v2 []) cases.deployed_next_day = None
  ∧ omap persisted
      (trace sim.handle (Update (Some tt) cases.billing_v2 []) cases.deployed_next_day)
    = [pending]
  ∧ sim.started
      (world sim.handle (Update (Some tt) cases.billing_v2 []) cases.deployed_next_day)
    = [buildAndUpdate pending].
Proof.
  intros pending.
  edestruct (Update_builder_pending_then_returns sim.handle tt cases.billing_v2 []
               cases.deployed_next_day) as (Hrun & Hwritten & _);
    [reflexivity | reflexivity | reflexivity |].
  split; [exact (f_equal (λ x, x.1.1) Hrun)|].
  split; [exact Hwritten | exact (f_equal (λ x, sim.started x.1.2) Hrun)].
Defined.

(** Read when the backend cannot be reached: the error, and no service. *)
Lemma Read_query_errors_witness :
  result cases.handle_down (Read []) sim.deployed = Done ([], Some cases.unavailable).
Proof.
  unfold result.
  by rewrite (Read_query_errors cases.handle_down [] sim.deployed sim.deployed sim.deployed
                [sim.billing_record] [] None (Some cases.unavailable) eq_refl eq_refl).
Defined.

(** Update and Delete in a namespace the store cannot read. *)
Lemma Update_Delete_read_error_witness :
  result sim.handle (Update None sim.billing [cases.in_staging]) sim.degraded
  = Some (runtime.ErrOther "store: read failed")
  ∧ result sim.handle (Delete sim.billing [cases.delete_in_staging]) sim.degraded
    = Some (runtime.ErrOther "store: read failed").
Proof.
  destruct (Update_Delete_read_error sim.handle None sim.billing
              [cases.in_staging] [cases.delete_in_staging]
              sim.degraded sim.degraded sim.degraded [] []
              (runtime.ErrOther "store: read failed") (runtime.ErrOther "store: read failed")
              eq_refl eq_refl) as [HU HD].
  unfold result. by rewrite HU, HD.
Defined.

(** Start when the backend cannot be started, and Start again. *)
Lemma Start_from_stopped_witness :
  result cases.handle_down (Start (mkmanager false)) sim.fresh
  = (mkmanager true, Some cases.unavailable)
  ∧ trace cases.handle_down (Start (mkmanager true)) sim.fresh = [].
Proof.
  destruct (Start_from_stopped cases.handle_down sim.fresh sim.fresh
              (Some cases.unavailable) eq_refl) as [Hrun Hagain].
  split.
  - unfold result. by rewrite Hrun.
  - unfold trace. specialize (Hagain sim.fresh). unfold result in Hagain.
    rewrite Hrun in Hagain. cbn [fst] in Hagain. by rewrite Hagain.
Defined.

(** Stop when the backend cannot be stopped: the flag is cleared all the
    same. *)
Lemma Stop_from_running_witness :
  result cases.handle_down (Stop (mkmanager true)) sim.deployed
  = (mkmanager false, Some cases.unavailable).
Proof.
  destruct (Stop_from_running cases.handle_down sim.deployed sim.deployed
              (Some cases.unavailable) eq_refl) as [Hrun _].
  unfold result. by rewrite Hrun.
Defined.

(** A pass when the namespaces cannot be listed. *)
Lemma watchServices_list_error_witness :
  trace cases.handle_down watchServices sim.restarted
  = [Ev listNamespaces ([], Some cases.unavailable);
     Ev (logger_Warnf "Error listing namespaces: %v" [logger.ArgError cases.unavailable]) tt].
Proof.
  unfold trace.
  by rewrite (watchServices_list_error cases.handle_down sim.restarted sim.restarted []
                cases.unavailable eq_refl).
Defined.

(** The loop over a record to restart, a stopped one and one that is
    reported as running. *)
Example watchServices_srvs_creations_example :
  creations (trace sim.handle
               (watchServices_srvs (byKey [Service cases.search_record])
                  [sim.billing_record; cases.stopped_record; cases.search_record])
               sim.fresh)
  = [sim.billing_record].
Proof. by rewrite watchServices_srvs_creations. Qed.

(** Read of a record with metadata of its own and a failed build. *)
Lemma Read_keeps_record_witness :
  ∃ out r md,
    result sim.handle (Read []) cases.tagged = Done (out, None)
    ∧ length out = 1
    ∧ out !! 0 = Some r
    ∧ runtime.Name r = "billing"
    ∧ runtime.Version r = "latest"
    ∧ runtime.Source r = "github.com/micro/services/billing"
    ∧ runtime.Metadata r = Some md
    ∧ (∀ k, k ≠ "error" → k ≠ "started" → k ≠ "status" →
         md !! k = ({[ "owner" := "alice"; "error" := "stale" ]} : gmap string string) !! k)
    ∧ md !! "error" = Some "build failed"
    ∧ md !! "started" = Some "2020-07-14T12:00:00Z".
Proof.
  apply (Read_keeps_record sim.handle [] cases.tagged cases.tagged cases.tagged
           [cases.tagged_record] [] 0 cases.tagged_record).
  - reflexivity.
  - reflexivity.
  - repeat constructor. unfold allocated. simpl. discriminate.
  - reflexivity.
  - reflexivity.
Defined.

Lemma Read_not_live_stored_status_witness :
  ∃ out r md,
    result sim.handle (Read []) cases.tagged = Done (out, None)
    ∧ out !! 0 = Some r
    ∧ runtime.Status r = stored_status cases.tagged_record
    ∧ runtime.Metadata r = Some md
    ∧ md !! "status"
      = ({[ "owner" := "alice"; "error" := "stale" ]} : gmap string string) !! "status".
Proof.
  apply (Read_not_live_stored_status sim.handle [] cases.tagged cases.tagged cases.tagged
           [cases.tagged_record] [] 0 cases.tagged_record
           {[ "owner" := "alice"; "error" := "stale" ]}).
  - reflexivity.
  - reflexivity.
  - repeat constructor. unfold allocated. simpl. discriminate.
  - reflexivity.
  - reflexivity.
  - reflexivity.
Defined.

(** Read of a record that did not come through Create. *)
Lemma Read_panics_on_nil_metadata_witness :
  result sim.handle (Read []) cases.foreign = Panic "assignment to entry in nil map".
Proof.
  exact (Read_panics_on_nil_metadata sim.handle [] cases.foreign cases.foreign cases.foreign
           [cases.foreign_record] [] eq_refl eq_refl).
Defined.

Lemma key_injective_without_colon_witness :
  runtime.Name sim.billing_live = runtime.Name (Service sim.billing_record)
  ∧ runtime.Version sim.billing_live = runtime.Version (Service sim.billing_record).
Proof.
  apply (key_injective_without_colon sim.billing_live (Service sim.billing_record));
    reflexivity.
Defined.


(** When the backend runs api:v1 of version 2, a pass creates nothing,
    though the store holds api of version v1:2 and no such service runs. *)
Example key_collision_shadowed :
  creations (trace sim.handle watchServices cases.api_shadowed) = [].
Proof. reflexivity. Qed.

(** A profile of one's own next to the built-in ones. *)
Lemma Register_then_Load_witness :
  let tbl := profile.profiles 1 2 3 4 5 in
  let p := profile.mkProfile "ci" 6 in
  (profile.Register "ci" p tbl).1 = None
  ∧ profile.Load "ci" (profile.Register "ci" p tbl).2 = (Some p, None)
  ∧ ∀ other, other ≠ "ci" →
      profile.Load other (profile.Register "ci" p tbl).2 = profile.Load other tbl.
Proof.
  intros tbl p. apply (Register_then_Load "ci" p tbl). vm_compute. discriminate.
Defined.

Lemma Register_taken_witness :
  let tbl := profile.profiles 1 2 3 4 5 in
  let p := profile.mkProfile "local" 6 in
  profile.Register "local" p tbl = (Some "profile local already exists", tbl)
  ∧ profile.Load "local" (profile.Register "local" p tbl).2 = (Some (profile.Local 4), None).
Proof.
  intros tbl p. apply (Register_taken "local" p (profile.Local 4) tbl). reflexivity.
Defined.

Lemma builtin_profiles_permanent_witness :
  let tbl :=
    profile.RegisterAll
      [("ci", profile.mkProfile "ci" 6); ("test", profile.mkProfile "mine" 7)]
      (profile.profiles 1 2 3 4 5) in
  ∃ q,
    profile.Load "test" tbl = (Some q, None)
    ∧ profile.Name q = "test"
    ∧ profile.Register "test" (profile.mkProfile "other" 8) tbl
      = (Some "profile test already exists", tbl).
Proof.
  intros tbl.
  apply (builtin_profiles_permanent 1 2 3 4 5
           [("ci", profile.mkProfile "ci" 6); ("test", profile.mkProfile "mine" 7)]
           "test" (profile.mkProfile "other" 8)).
  set_solver.
Defined.

End MoreRuns.
